(** * PostgreSQL configuration store (configuration/postgres/postgres.go)

    A shallow embedding of the Go component: option parsing, the query
    builder, [Init], [Get], the subscription registry and the notification
    payload decoder, with the properties established about them.

    Conventions.
    - A Go [string] is a Rocq [string] (a sequence of bytes).
    - A Go [map[string]T] that is only read is a [gmap string T]; a map that
      may be [nil] and is written to is a [GoMap] (see below).
    - [for k, v := range m] visits the entries of [m] in an order the
      language leaves unspecified: a loop over a map takes the visiting
      order as an explicit list, constrained to be a permutation of the
      entries of the map.
    - Calls into libraries outside the repository (database driver, JSON
      decoder, duration parser, logger) appear as section variables or as
      scripted results of the environment. *)

From Stdlib Require Import ZArith Ascii String List Permutation.
From stdpp Require Import base option list gmap strings pretty fin_maps.



(** ** Errors and results *)

Module Go.

(** Go [error] values met in this file. [sql_ErrNoRows] is the sentinel of
    database/sql; [errorString] is what [fmt.Errorf] and [errors.New]
    build; [external] stands for an error produced by a library. *)
Inductive error : Type :=
| sql_ErrNoRows
| errorString (msg : string)
| external (code : nat).

Definition error_eqb (a b : error) : bool :=
  match a, b with
  | sql_ErrNoRows, sql_ErrNoRows => true
  | errorString x, errorString y => String.eqb x y
  | external x, external y => Nat.eqb x y
  | _, _ => false
  end.

(** [err.Error()] *)
Definition Error (e : error) : string :=
  match e with
  | sql_ErrNoRows => "sql: no rows in result set"
  | errorString m => m
  | external _ => "external error"
  end.

(** A map value that may be [nil]. Reading a nil map behaves like reading
    an empty one; assigning into a nil map panics. *)
Definition GoMap (V : Type) : Type := option (gmap string V).

Definition nilMap {V} : GoMap V := None.

Definition map_len {V} (m : GoMap V) : nat :=
  match m with
  | None => 0
  | Some g => size g
  end.

Definition map_index {V} (m : GoMap V) (k : string) : option V :=
  match m with
  | None => None
  | Some g => g !! k
  end.

(** [m[k] = v]: [None] is the run-time panic
    "assignment to entry in nil map". *)
Definition map_assign {V} (m : GoMap V) (k : string) (v : V) : option (GoMap V) :=
  match m with
  | None => None
  | Some g => Some (Some (<[k := v]> g))
  end.

(** [strings.Join(elems, sep)] *)
Fixpoint Join (elems : list string) (sep : string) : string :=
  match elems with
  | [] => ""
  | [e] => e
  | e :: rest => e +:+ sep +:+ Join rest sep
  end.

(** Does [s] start with [p]? *)
Fixpoint HasPrefix (s p : string) : bool :=
  match p, s with
  | EmptyString, _ => true
  | String c p', String d s' => Ascii.eqb c d && HasPrefix s' p'
  | String _ _, EmptyString => false
  end.

(** [strings.Contains(s, substr)] *)
Fixpoint Contains (s substr : string) : bool :=
  HasPrefix s substr ||
  match s with
  | EmptyString => false
  | String _ s' => Contains s' substr
  end.

End Go.

(** ** The configuration package (types used by the store) *)

Module configuration.

Record Item : Type := mkItem {
  Value : string;
  Version : string;
  ItemMetadata : gmap string string
}.

Record GetRequest : Type := mkGetRequest {
  Keys : list string;
  ReqMetadata : gmap string string
}.

Record GetResponse : Type := mkGetResponse {
  Items : Go.GoMap Item
}.

Record UpdateEvent : Type := mkUpdateEvent {
  EventItems : gmap string Item;
  ID : string
}.

Record Metadata : Type := mkMetadata {
  Properties : gmap string string
}.

End configuration.

(** ** Constants of the component *)

Definition configtablekey : string := "table".
Definition connMaxIdleTimeKey : string := "connMaxIdleTime".
Definition connectionStringKey : string := "connectionString".
Definition ErrorMissingTableName : string := "missing postgreSQL configuration table name".
Definition InfoStartInit : string := "Initializing PostgreSQL state store".
Definition ErrorMissingConnectionString : string := "missing postgreSQL connection string".
Definition ErrorAlreadyInitialized : string := "PostgreSQL configuration store already initialized".
Definition ErrorMissinMaxTimeout : string := "missing PostgreSQL maxTimeout setting in configuration".
Definition QueryTableExists : string := "SELECT EXISTS (SELECT FROM pg_tables where tablename = $1)".
Definition maxIdentifierLength : nat := 64.
Definition ErrorTooLongFieldLength : string := "field name is too long".

(** ** The query builder *)

Module QueryBuilder.
Import configuration.

(** The visiting orders [range req.Metadata] may take. *)
Definition range_order (m : gmap string string) (order : list (string * string)) : Prop :=
  order ≡ₚ map_to_list m.

(** One step of the body of the [range] loop: [temp] is written, and the
    separator follows unless this was the last of the [i] entries. *)
Definition clause (kv : string * string) : string :=
  fst kv +:+ "='" +:+ snd kv +:+ "'".

Fixpoint range_loop (i j : nat) (order : list (string * string)) (s : string) : string :=
  match order with
  | [] => s
  | kv :: rest =>
      let s1 := s +:+ clause kv in
      let j1 := S j in
      let s2 := if j1 <? i then s1 +:+ " AND " else s1 in
      range_loop i j1 rest s2
  end.

(** [buildQuery], with the visiting order of the metadata map made
    explicit. The result is the pair (query, error) the Go function
    returns; [None] is the nil error. *)
Definition buildQuery_in (order : list (string * string))
    (req : GetRequest) (configTable : string) : string * option Go.error :=
  let query :=
    if decide (length (Keys req) = 0) then
      "SELECT * FROM " +:+ configTable
    else
      ("SELECT * FROM " +:+ configTable +:+ " WHERE KEY IN ('")
        +:+ Go.Join (Keys req) "','"
        +:+ "')" in
  let query :=
    if decide (0 < size (ReqMetadata req)) then
      let i := size (ReqMetadata req) in
      query +:+ range_loop i 0 order " AND "
    else query in
  (query, None).

(** What a call of [buildQuery] may return. *)
Definition buildQuery (req : GetRequest) (configTable : string)
    (res : string * option Go.error) : Prop :=
  ∃ order, range_order (ReqMetadata req) order ∧ res = buildQuery_in order req configTable.

End QueryBuilder.

(** ** Options parsing *)

Module Parser.
Import configuration.

(** [time.Duration]: a count of nanoseconds. *)
Definition Duration : Type := Z.

Record metadata : Type := mkmetadata {
  maxIdleTime : Duration;
  connectionString : string;
  configTable : string
}.

(** The zero value [metadata{}]. *)
Definition metadata_zero : metadata := mkmetadata 0%Z "" "".

(** [utf8string.NewString(s).IsASCII()]: every byte is below 0x80. *)
Fixpoint IsASCII (s : string) : bool :=
  match s with
  | EmptyString => true
  | String c s' => (nat_of_ascii c <? 128)%nat && IsASCII s'
  end.

Definition nonempty (s : string) : bool := negb (String.eqb s "").

Section WithParseDuration.
(** [time.ParseDuration] of the Go standard library. *)
Variable time_ParseDuration : string -> Go.error + Duration.

Definition parseMetadata (cmetadata : Metadata) : metadata * option Go.error :=
  let m := metadata_zero in
  match Properties cmetadata !! connectionStringKey with
  | Some val =>
    if nonempty val then
      let m := mkmetadata (maxIdleTime m) val (configTable m) in
      match Properties cmetadata !! configtablekey with
      | Some tbl =>
        if nonempty tbl then
          if negb (IsASCII tbl) then
            (m, Some (Go.errorString
               ("invalid table name : '" +:+ tbl +:+
                "'. non-ascii characters are not supported")))
          else if (maxIdentifierLength <? String.length tbl)%nat then
            (m, Some (Go.errorString
               (ErrorTooLongFieldLength +:+ " - tableName : '" +:+ tbl +:+
                "'. max allowed field length is " +:+ pretty maxIdentifierLength +:+ " ")))
          else
            let m := mkmetadata (maxIdleTime m) (connectionString m) tbl in
            (* configure maxTimeout if provided *)
            match Properties cmetadata !! connMaxIdleTimeKey with
            | Some mxTimeout =>
              if nonempty mxTimeout then
                match time_ParseDuration mxTimeout with
                | inr t => (mkmetadata t (connectionString m) (configTable m), None)
                | inl _ => (m, Some (Go.errorString ErrorMissinMaxTimeout))
                end
              else (m, None)
            | None => (m, None)
            end
        else (m, Some (Go.errorString ErrorMissingTableName))
      | None => (m, Some (Go.errorString ErrorMissingTableName))
      end
    else (m, Some (Go.errorString ErrorMissingConnectionString))
  | None => (m, Some (Go.errorString ErrorMissingConnectionString))
  end.
End WithParseDuration.

(** A duration parser for running examples: a decimal number of seconds
    followed by [s]; anything else is rejected, as the library rejects
    it when it is not a duration at all. It agrees with the library on
    the strings used below. *)
Fixpoint seconds_digits (acc : Z) (s : string) : option Z :=
  match s with
  | String "s" EmptyString => Some acc
  | String c s' =>
      let n := nat_of_ascii c in
      if ((48 <=? n) && (n <=? 57))%nat
      then seconds_digits (10 * acc + Z.of_nat (n - 48))%Z s'
      else None
  | EmptyString => None
  end.

Definition example_ParseDuration (s : string) : Go.error + Duration :=
  match s with
  | String "s" EmptyString => inl (Go.errorString "time: invalid duration")
  | _ =>
    match seconds_digits 0 s with
    | Some n => inr (n * 1000000000)%Z
    | None => inl (Go.errorString "time: invalid duration")
    end
  end.

End Parser.

(** ** The store: [Init] and [Get] *)

Module Store.
Import configuration Parser.

(** A [*pgxpool.Pool]: a handle on the pool the driver built. *)
Definition Pool : Type := nat.

(** A stop channel [chan struct{}]: a handle into the table of channels
    of the run-time state. *)
Definition chan : Type := nat.

Record ConfigurationStore : Type := mkStore {
  store_metadata : metadata;
  client : option Pool;
  subscribeStopChanMap : gmap string chan
}.

(** What [NewPostgresConfigurationStore] returns. *)
Definition NewPostgresConfigurationStore : ConfigurationStore :=
  mkStore metadata_zero None ∅.

Inductive LogEntry : Type :=
| LogDebug (msg : string)
| LogError (e : Go.error)
| LogErrorf (format : string) (arg : string).

(** A row of the result set, as the database holds it. *)
Record Row : Type := mkRow {
  col_key : string;
  col_value : string;
  col_version : string;
  col_metadata : string
}.

(** How a call returning [(T, error)] can end: with a value and a nil
    error, with an error, or with a run-time panic. *)
Inductive outcome (T : Type) : Type :=
| Returned (v : T)
| Failed (e : Go.error)
| Panicked (msg : string).
Arguments Returned {T} v.
Arguments Failed {T} e.
Arguments Panicked {T} msg.

Section WithDatabase.
Variable time_ParseDuration : string -> Go.error + Duration.
(** [pgxpool.Connect(ctx, conn)] *)
Variable pgxpool_Connect : string -> Go.error + Pool.
(** [pool.Ping(ctx)]; the second argument counts the pings made on the
    pool so far, as successive pings need not agree. *)
Variable pool_Ping : Pool -> nat -> option Go.error.
(** [pool.QueryRow(ctx, query, arg).Scan(&exists)] *)
Variable pool_QueryRow_Scan : Pool -> string -> string -> Go.error + bool.
(** [pool.Query(ctx, query)] *)
Variable pool_Query : Pool -> string -> Go.error + list Row.
(** [rows.Scan(key, &item.Value, &item.Version, &metadata)] on the
    current row. The first destination is the string [key] itself, not
    its address: whatever the driver does with it, the variable [key]
    of the caller keeps its value. [None] is success, and then the
    three addressed destinations hold the row's columns. *)
Variable rows_Scan : Row -> option Go.error.
(** [json.Unmarshal(metadata, &v)] for [v] a fresh [map[string]string] *)
Variable json_Unmarshal_strings : string -> Go.error + gmap string string.

(** [Connect] *)
Definition Connect (conn : string) (maxTimeout : Duration) : Go.error + Pool :=
  match pgxpool_Connect conn with
  | inl err =>
      inl (Go.errorString
             ("postgres configuration store connection error : " +:+ Go.Error err))
  | inr pool =>
      match pool_Ping pool 0 with
      | Some pingErr =>
          inl (Go.errorString
                 ("postgres configuration store ping error : " +:+ Go.Error pingErr))
      | None => inr pool
      end
  end.

(** [Init]: the store after the call, what was logged, and the error
    returned ([None] for nil). *)
Definition Init (p : ConfigurationStore) (md : Metadata)
    : ConfigurationStore * list LogEntry * option Go.error :=
  let log := [LogDebug InfoStartInit] in
  match client p with
  | Some _ => (p, log, Some (Go.errorString ErrorAlreadyInitialized))
  | None =>
    match parseMetadata time_ParseDuration md with
    | (_, Some err) => (p, (log ++ [LogError err])%list, Some err)
    | (m, None) =>
      let p := mkStore m (client p) (subscribeStopChanMap p) in
      match Connect (connectionString m) (maxIdleTime m) with
      | inl err => (p, log, Some err)
      | inr c =>
        let p := mkStore (store_metadata p) (Some c) (subscribeStopChanMap p) in
        match pool_Ping c 1 with
        | Some pingErr => (p, log, Some pingErr)
        | None =>
          (* check if table exists *)
          match pool_QueryRow_Scan c QueryTableExists (configTable m) with
          | inl err => (p, log, Some err)
          | inr exists_ => (p, log, None)
          end
        end
      end
    end
  end.

(** The [for rows.Next()] loop of [Get]. [key] is declared in the body
    and is never assigned, so it is the empty string when the item is
    stored. *)
Fixpoint Get_rows (rows : list Row) (response : GetResponse) : outcome GetResponse :=
  match rows with
  | [] => Returned response
  | r :: rest =>
    let key := "" in
    match rows_Scan r with
    | Some err => Failed err
    | None =>
      match json_Unmarshal_strings (col_metadata r) with
      | inl err => Failed err
      | inr v =>
        let item := mkItem (col_value r) (col_version r) v in
        match Go.map_assign (Items response) key item with
        | None => Panicked "assignment to entry in nil map"
        | Some items => Get_rows rest (mkGetResponse items)
        end
      end
    end
  end.

(** [Get], for a visiting order [order] of the request's metadata. An
    error of [buildQuery] is logged and returned. *)
Definition Get_in (order : list (string * string))
    (p : ConfigurationStore) (req : GetRequest) : outcome GetResponse :=
  match QueryBuilder.buildQuery_in order req (configTable (store_metadata p)) with
  | (_, Some err) => Failed err
  | (query, None) =>
    match client p with
    | None => Panicked "invalid memory address or nil pointer dereference"
    | Some c =>
      match pool_Query c query with
      | inl err =>
          (* If no rows exist, return an empty response, otherwise return the error. *)
          if Go.error_eqb err Go.sql_ErrNoRows
          then Returned (mkGetResponse Go.nilMap)
          else Failed err
      | inr rows => Get_rows rows (mkGetResponse Go.nilMap)
      end
    end
  end.

(** What a call of [Get] may do. *)
Definition Get (p : ConfigurationStore) (req : GetRequest)
    (res : outcome GetResponse) : Prop :=
  ∃ order, QueryBuilder.range_order (ReqMetadata req) order ∧ res = Get_in order p req.

End WithDatabase.

End Store.

(** ** Subscription identifiers *)

Module uuid.

(** A [uuid.UUID] is an array of 16 bytes. *)
Definition UUID : Type := list ascii.

Definition hexdigit (n : N) : ascii :=
  match n with
  | 0 => "0" | 1 => "1" | 2 => "2" | 3 => "3" | 4 => "4" | 5 => "5"
  | 6 => "6" | 7 => "7" | 8 => "8" | 9 => "9" | 10 => "a" | 11 => "b"
  | 12 => "c" | 13 => "d" | 14 => "e" | _ => "f"
  end%N%char.

(** [hex.Encode]: two lower-case hexadecimal digits per byte. *)
Fixpoint hex_Encode (src : list ascii) : string :=
  match src with
  | [] => ""
  | b :: rest =>
      let n := N_of_ascii b in
      String (hexdigit (n / 16)) (String (hexdigit (n mod 16)) (hex_Encode rest))
  end.

(** [UUID.String]: the form xxxxxxxx-xxxx-xxxx-xxxx-xxxxxxxxxxxx. *)
Definition String_ (u : UUID) : string :=
  hex_Encode (take 4 u) +:+ "-" +:+
  hex_Encode (take 2 (drop 4 u)) +:+ "-" +:+
  hex_Encode (take 2 (drop 6 u)) +:+ "-" +:+
  hex_Encode (take 2 (drop 8 u)) +:+ "-" +:+
  hex_Encode (drop 10 u).

End uuid.

(** ** The subscription registry *)

Module Registry.
Import configuration Parser Store.

(** A listener goroutine started by [Subscribe]: the channel name, the
    identifier and the stop channel handed to [doSubscribe]. *)
Record Listener : Type := mkListener {
  l_channel : string;
  l_id : string;
  l_stop : chan
}.

(** The run-time state outside the store: the channels made so far
    ([true] once closed) and the goroutines started so far. *)
Record Runtime : Type := mkRuntime {
  chans : list bool;
  goroutines : list Listener
}.

Definition Runtime_init : Runtime := mkRuntime [] [].

(** [make(chan struct{})] *)
Definition make_chan (rt : Runtime) : chan * Runtime :=
  (length (chans rt), mkRuntime (chans rt ++ [false]) (goroutines rt)).

(** [close(c)]: closing a closed channel panics. *)
Definition close_chan (c : chan) (rt : Runtime) : outcome Runtime :=
  match chans rt !! c with
  | Some false => Returned (mkRuntime (<[c := true]> (chans rt)) (goroutines rt))
  | Some true => Panicked "close of closed channel"
  | None => Panicked "close of nil channel"
  end.

Definition is_closed (rt : Runtime) (c : chan) : bool :=
  match chans rt !! c with
  | Some b => b
  | None => false
  end.

(** [Subscribe]: [u] is the value [uuid.New()] returns in this call. *)
Definition Subscribe (p : ConfigurationStore) (rt : Runtime) (u : uuid.UUID)
    : outcome (string * ConfigurationStore * Runtime) :=
  let subscribeID := uuid.String_ u in
  let key := "listen " +:+ configTable (store_metadata p) in
  (* subscribe to events raised on the configTable *)
  let closed :=
    match subscribeStopChanMap p !! key with
    | Some oldStopChan => close_chan oldStopChan rt
    | None => Returned rt
    end in
  match closed with
  | Returned rt =>
      let '(stop, rt) := make_chan rt in
      let p := mkStore (store_metadata p) (client p)
                       (<[subscribeID := stop]> (subscribeStopChanMap p)) in
      let rt := mkRuntime (chans rt)
                          (goroutines rt ++ [mkListener key subscribeID stop]) in
      Returned (subscribeID, p, rt)
  | Failed e => Failed e
  | Panicked msg => Panicked msg
  end.

(** [Unsubscribe] *)
Definition Unsubscribe (p : ConfigurationStore) (rt : Runtime) (id : string)
    : outcome (ConfigurationStore * Runtime) :=
  match subscribeStopChanMap p !! id with
  | Some oldStopChan =>
      let p := mkStore (store_metadata p) (client p)
                       (delete id (subscribeStopChanMap p)) in
      match close_chan oldStopChan rt with
      | Returned rt => Returned (p, rt)
      | Failed e => Failed e
      | Panicked msg => Panicked msg
      end
  | None => Returned (p, rt)
  end.

(** The calls a host makes on the registry. *)
Inductive call : Type :=
| CallSubscribe (u : uuid.UUID)
| CallUnsubscribe (id : string).

Definition step (st : ConfigurationStore * Runtime) (c : call)
    : outcome (ConfigurationStore * Runtime) :=
  match c with
  | CallSubscribe u =>
      match Subscribe (fst st) (snd st) u with
      | Returned (_, p, rt) => Returned (p, rt)
      | Failed e => Failed e
      | Panicked msg => Panicked msg
      end
  | CallUnsubscribe id => Unsubscribe (fst st) (snd st) id
  end.

(** The states a store with metadata [m] reaches from a fresh registry. *)
Inductive reachable (m : metadata) : ConfigurationStore * Runtime -> Prop :=
| reach_init c : reachable m (mkStore m c ∅, Runtime_init)
| reach_step st c st' :
    reachable m st -> step st c = Returned st' -> reachable m st'.

(** The invariant of the reachable states: the registry only holds
    identifiers, and the metadata of the store do not change. *)
Definition registry_of_ids (m : metadata) (st : ConfigurationStore * Runtime) : Prop :=
  store_metadata (fst st) = m ∧
  ∀ k c, subscribeStopChanMap (fst st) !! k = Some c -> ∃ u, k = uuid.String_ u.

(** The listeners whose stop channel is still open. *)
Definition live_listeners (rt : Runtime) : list Listener :=
  filter (fun l => is_closed rt (l_stop l) = false) (goroutines rt).

End Registry.

(** ** The payload decoder and the listener loop *)

Module Decoder.
Import configuration Store.

(** What [json.Unmarshal] stores in an [interface{}]. A JSON object is a
    [map[string]interface{}]; it is kept as the list of its entries in
    the order a [range] over it visits them. A number is a [float64],
    which the decoder never inspects: it is kept as its literal. *)
#[local] Set Warnings "-register-all".
Inductive JValue : Type :=
| JNil
| JBool (b : bool)
| JFloat64 (literal : string)
| JString (s : string)
| JSlice (elems : list JValue)
| JMap (entries : list (string * JValue)).

(** The dynamic type, as a run-time error prints it. *)
Definition type_name (v : JValue) : string :=
  match v with
  | JNil => "nil"
  | JBool _ => "bool"
  | JFloat64 _ => "float64"
  | JString _ => "string"
  | JSlice _ => "[]interface {}"
  | JMap _ => "map[string]interface {}"
  end.

(** The value of a panic raised by a failed type assertion
    ([*runtime.TypeAssertionError]). *)
Inductive PanicValue : Type :=
| TypeAssertionError (dynamic asserted : string).

Definition panic_Error (pv : PanicValue) : string :=
  match pv with
  | TypeAssertionError d a =>
      "interface conversion: interface {} is " +:+ d +:+ ", not " +:+ a
  end.

(** [v.(string)] *)
Definition assert_string (v : JValue) : PanicValue + string :=
  match v with
  | JString s => inr s
  | _ => inl (TypeAssertionError (type_name v) "string")
  end.

(** [v.(map[string]interface{})] *)
Definition assert_map (v : JValue) : PanicValue + list (string * JValue) :=
  match v with
  | JMap entries => inr entries
  | _ => inl (TypeAssertionError (type_name v) "map[string]interface {}")
  end.

Record Notification : Type := mkNotification {
  PID : nat;
  Channel : string;
  Payload : string
}.

(** What the listener does that the outside can see. *)
Inductive Effect : Type :=
| Logged (entry : LogEntry)
| HandlerCalled (e : UpdateEvent).

(** The local variables [key], [value], [version] and [m]. *)
Record locals : Type := mkLocals {
  key : string;
  value : string;
  version : string;
  m : gmap string string
}.

Definition locals_init : locals := mkLocals "" "" "" ∅.

(** [for k, v := range a { m[k] = v.(string) }] *)
Fixpoint metadata_loop (a : list (string * JValue)) (m : gmap string string)
    : PanicValue + gmap string string :=
  match a with
  | [] => inr m
  | (k, v) :: rest =>
      match assert_string v with
      | inl pv => inl pv
      | inr s => metadata_loop rest (<[k := s]> m)
      end
  end.

Section WithCollaborators.
(** [strings.ToLower] *)
Variable strings_ToLower : string -> string.
(** [json.Unmarshal([]byte(payload), &payload)] for a fresh
    [map[string]interface{}] *)
Variable json_Unmarshal : string -> Go.error + gmap string JValue.
(** The handler the subscriber supplied. *)
Variable handler : UpdateEvent -> option Go.error.

(** The body of the [switch] for one field of the row. *)
Definition field (strKey : string) (v : JValue) (st : locals) : PanicValue + locals :=
  let tag := strings_ToLower strKey in
  if String.eqb tag "key" then
    match assert_string v with
    | inl pv => inl pv
    | inr s => inr (mkLocals s (value st) (version st) (m st))
    end
  else if String.eqb tag "value" then
    match assert_string v with
    | inl pv => inl pv
    | inr s => inr (mkLocals (key st) s (version st) (m st))
    end
  else if String.eqb tag "version" then
    match assert_string v with
    | inl pv => inl pv
    | inr s => inr (mkLocals (key st) (value st) s (m st))
    end
  else if String.eqb tag "metadata" then
    match assert_map v with
    | inl pv => inl pv
    | inr a =>
        match metadata_loop a (m st) with
        | inl pv => inl pv
        | inr m' => inr (mkLocals (key st) (value st) (version st) m')
        end
    end
  else inr st.

(** [for _, k := range row.MapKeys() { ... }] *)
Fixpoint row_loop (row : list (string * JValue)) (st : locals) : PanicValue + locals :=
  match row with
  | [] => inr st
  | (k, v) :: rest =>
      match field k v st with
      | inl pv => inl pv
      | inr st' => row_loop rest st'
      end
  end.

(** The body of [handleSubscribedChange] below its [defer]: the effects
    made, and the panic raised if one was. *)
Definition handle_body (msg : Notification) (id : string)
    : list Effect * option PanicValue :=
  match json_Unmarshal (Payload msg) with
  | inl err => ([Logged (LogErrorf "Error in UnMarshal: " (Go.Error err))], None)
  | inr payload =>
      (* trigger should encapsulate the row in "data" field in the notification *)
      let decoded :=
        match payload !! "data" with
        | Some (JMap row) => row_loop row locals_init
        | _ => inr locals_init
        end in
      match decoded with
      | inl pv => ([], Some pv)
      | inr st =>
          let e := mkUpdateEvent
                     {[ key st := mkItem (value st) (version st) (m st) ]} id in
          match handler e with
          | Some err =>
              ([HandlerCalled e;
                Logged (LogErrorf
                  "fail to call handler to notify event for configuration update subscribe: %s"
                  (Go.Error err))], None)
          | None => ([HandlerCalled e], None)
          end
      end
  end.

(** [handleSubscribedChange]: the deferred function recovers a panic of
    the body and logs it. The second component is the panic that leaves
    the function. *)
Definition handleSubscribedChange (msg : Notification) (id : string)
    : list Effect * option PanicValue :=
  match handle_body msg id with
  | (effects, Some pv) =>
      ((effects ++
        [Logged (LogErrorf "panic in handleSubscribedChange method and recovered: %s"
                           (panic_Error pv))])%list, None)
  | (effects, None) => (effects, None)
  end.

(** How the listener goroutine ends. *)
Inductive TaskEnd : Type :=
| TaskReturned
| TaskCrashed (pv : PanicValue).

(** The [for] loop of [doSubscribe]: [pending] are the notifications
    [WaitForNotification] delivers, in order, before it fails with
    [waitErr]; [quiet] tells whether that failure is a timeout or a
    cancellation of the context. *)
Fixpoint wait_loop (pending : list Notification) (waitErr : Go.error) (quiet : bool)
    (id : string) : list Effect * TaskEnd :=
  match pending with
  | [] =>
      if quiet then ([], TaskReturned)
      else ([Logged (LogErrorf "Error waiting for notification:" (Go.Error waitErr))],
            TaskReturned)
  | msg :: rest =>
      match handleSubscribedChange msg id with
      | (effects, Some pv) => (effects, TaskCrashed pv)
      | (effects, None) =>
          let '(later, ending) := wait_loop rest waitErr quiet id in
          ((effects ++ later)%list, ending)
      end
  end.

Definition handler_calls (effects : list Effect) : list UpdateEvent :=
  omap (fun e => match e with HandlerCalled ev => Some ev | Logged _ => None end) effects.

End WithCollaborators.

(** [strings.ToLower] on ASCII strings, for running examples. *)
Definition ascii_ToLower_char (c : ascii) : ascii :=
  let n := nat_of_ascii c in
  if ((65 <=? n) && (n <=? 90))%nat then ascii_of_nat (n + 32) else c.

Fixpoint ascii_ToLower (s : string) : string :=
  match s with
  | EmptyString => EmptyString
  | String c s' => String (ascii_ToLower_char c) (ascii_ToLower s')
  end.

(** Does visiting the field [k], [v] of the row panic? *)
Definition field_panics (strings_ToLower : string -> string)
    (kv : string * JValue) : bool :=
  let tag := strings_ToLower (fst kv) in
  if String.eqb tag "key" || String.eqb tag "value" || String.eqb tag "version" then
    match snd kv with JString _ => false | _ => true end
  else if String.eqb tag "metadata" then
    match snd kv with
    | JMap a => existsb (fun e => match snd e with JString _ => false | _ => true end) a
    | _ => true
    end
  else false.

End Decoder.

(** ** Renderings used to state the results

    The two parts of a query, written out without the loop counters. *)

Module Rendering.

Definition select_part (keys : list string) (configTable : string) : string :=
  match keys with
  | [] => "SELECT * FROM " +:+ configTable
  | _ :: _ =>
      "SELECT * FROM " +:+ configTable +:+ " WHERE KEY IN ('"
        +:+ Go.Join keys "','" +:+ "')"
  end.

Definition filter_part (clauses : list string) : string :=
  match clauses with
  | [] => ""
  | _ :: _ => " AND " +:+ Go.Join clauses " AND "
  end.

(** No byte of [w] is [c]. *)
Fixpoint avoids (c : ascii) (w : string) : bool :=
  match w with
  | EmptyString => true
  | String y w' => negb (Ascii.eqb y c) && avoids c w'
  end.

End Rendering.

(** ** Sample inputs

    JSON texts used to run the definitions, and the answers of the JSON
    decoder on them. *)

Module Samples.
Import Decoder.

(** The double quote. *)
Definition dq : string := String (ascii_of_nat 34) EmptyString.

(** The text [{}]. *)
Definition payload_empty : string := "{}".

(** The text [{"data":5}]. *)
Definition payload_data_number : string :=
  "{" +:+ dq +:+ "data" +:+ dq +:+ ":5}".

(** The text [{"data":{"Key":"k1","Metadata":{"m":1}}}]. *)
Definition payload_metadata_number : string :=
  "{" +:+ dq +:+ "data" +:+ dq +:+ ":{" +:+ dq +:+ "Key" +:+ dq +:+ ":" +:+ dq +:+ "k1"
      +:+ dq +:+ "," +:+ dq +:+ "Metadata" +:+ dq +:+ ":{" +:+ dq +:+ "m" +:+ dq +:+ ":1}}}".

(** The text [{"owner":"x"}]. *)
Definition metadata_owner : string :=
  "{" +:+ dq +:+ "owner" +:+ dq +:+ ":" +:+ dq +:+ "x" +:+ dq +:+ "}".

(** [json.Unmarshal] into a [map[string]interface{}], on the texts above;
    any other text is taken as not being JSON. *)
Definition sample_Unmarshal (text : string) : Go.error + gmap string JValue :=
  if String.eqb text payload_empty then inr ∅
  else if String.eqb text payload_data_number then inr {[ "data" := JFloat64 "5" ]}
  else if String.eqb text payload_metadata_number then
    inr {[ "data" := JMap [("Key", JString "k1");
                           ("Metadata", JMap [("m", JFloat64 "1")])] ]}
  else inl (Go.errorString "invalid character").

End Samples.

(** ** The stand-alone [QueryRow] helper *)

Module Helper.
Import Store.

(** [QueryRow]: runs the query with one argument, scans a boolean that it
    then drops, and wraps the error. *)
Definition QueryRow (pool_QueryRow_Scan : Pool -> string -> string -> Go.error + bool)
    (p : Pool) (query tbl : string) : option Go.error :=
  match pool_QueryRow_Scan p query tbl with
  | inl err =>
      Some (Go.errorString
              ("postgres configuration store query error : " +:+ Go.Error err))
  | inr exists_ => None
  end.

End Helper.

(** ** Predicates used to state further results *)

Module Facts.
Import configuration Parser Store Registry Decoder.

(** The options [parseMetadata] accepts, and the metadata it builds from
    them. *)
Definition accepted_options (pd : string -> Go.error + Duration) (md : Metadata)
    (m : metadata) : Prop :=
  ∃ conn tbl,
    Properties md !! connectionStringKey = Some conn ∧ conn ≠ "" ∧
    Properties md !! configtablekey = Some tbl ∧ tbl ≠ "" ∧
    IsASCII tbl = true ∧ String.length tbl ≤ maxIdentifierLength ∧
    connectionString m = conn ∧ configTable m = tbl ∧
    match Properties md !! connMaxIdleTimeKey with
    | None => maxIdleTime m = 0%Z
    | Some mxTimeout =>
        (mxTimeout = "" ∧ maxIdleTime m = 0%Z) ∨
        (mxTimeout ≠ "" ∧ pd mxTimeout = inr (maxIdleTime m))
    end.

(** Every registered stop channel has been made and is open, and no
    channel is registered twice. *)
Definition stop_channels_open (st : ConfigurationStore * Runtime) : Prop :=
  (∀ k c, subscribeStopChanMap (fst st) !! k = Some c ->
          chans (snd st) !! c = Some false) ∧
  (∀ k1 k2 c, subscribeStopChanMap (fst st) !! k1 = Some c ->
              subscribeStopChanMap (fst st) !! k2 = Some c -> k1 = k2).

(** Two runs of the field loop end alike: both panic, or both end with the
    same values of the locals. *)
Definition same_decoding (x y : PanicValue + locals) : Prop :=
  match x, y with
  | inl _, inl _ => True
  | inr a, inr b => a = b
  | _, _ => False
  end.

End Facts.

(** ** Further sample inputs *)

Module MoreSamples.

(** [n] times the byte [c]. *)
Fixpoint bytes (n : nat) (c : ascii) : string :=
  match n with
  | O => EmptyString
  | S n' => String c (bytes n' c)
  end.

(** A table name of 65 bytes, one more than an identifier may have. *)
Definition table_65 : string := bytes 65 "a".

(** A table name of two bytes outside ASCII (the UTF-8 form of e-acute). *)
Definition table_accent : string :=
  String (ascii_of_nat 195) (String (ascii_of_nat 169) EmptyString).

(** Options naming the table [cfg], and the metadata parsed from them. *)
Definition options_cfg : configuration.Metadata :=
  configuration.mkMetadata {[ "connectionString" := "host=db"; "table" := "cfg" ]}.

Definition metadata_cfg : Parser.metadata := Parser.mkmetadata 0%Z "host=db" "cfg".

(** An initialised store for the table [cfg], with an empty registry. *)
Definition store_cfg : Store.ConfigurationStore := Store.mkStore metadata_cfg (Some 7) ∅.

(** Answers of the driver: a pool is built; every ping is answered; only
    the first ping is answered; the table is reported missing; the table
    query fails. *)
Definition connect_ok : string -> Go.error + Store.Pool := fun _ => inr 7.

Definition connect_refused : string -> Go.error + Store.Pool := fun _ => inl (Go.external 2).

Definition ping_ok : Store.Pool -> nat -> option Go.error := fun _ _ => None.

Definition ping_once : Store.Pool -> nat -> option Go.error :=
  fun _ n => if Nat.eqb n 0 then None else Some (Go.external 1).

Definition scan_false : Store.Pool -> string -> string -> Go.error + bool :=
  fun _ _ _ => inr false.

(** A result set of two rows, which the driver scans and whose metadata
    the JSON decoder reads. *)
Definition two_rows : list Store.Row :=
  [Store.mkRow "k1" "v1" "1" Samples.metadata_owner;
   Store.mkRow "k2" "v2" "1" Samples.metadata_owner].

Definition query_two_rows : Store.Pool -> string -> Go.error + list Store.Row :=
  fun _ _ => inr two_rows.

Definition query_refused : Store.Pool -> string -> Go.error + list Store.Row :=
  fun _ _ => inl (Go.external 3).

Definition scan_ok : Store.Row -> option Go.error := fun _ => None.

Definition unmarshal_owner : string -> Go.error + gmap string string :=
  fun _ => inr {[ "owner" := "x" ]}.

(** The registry after one [Subscribe] on [store_cfg]. *)
Definition uuid_1 : uuid.UUID := repeat (ascii_of_nat 17) 16.


Definition id_1 : string := "11111111-1111-1111-1111-111111111111".

Definition store_1 : Store.ConfigurationStore :=
  Store.mkStore metadata_cfg (Some 7) {[ id_1 := 0 ]}.

Definition runtime_1 : Registry.Runtime :=
  Registry.mkRuntime [false] [Registry.mkListener "listen cfg" id_1 0].

End MoreSamples.


(** * Properties *)

(** ** The definitions on small inputs *)

Example buildQuery_all_rows :
  QueryBuilder.buildQuery_in [] (configuration.mkGetRequest [] ∅) "cfg"
  = ("SELECT * FROM cfg", None).
Proof. vm_compute. reflexivity. Qed.

Example buildQuery_two_keys :
  QueryBuilder.buildQuery_in [] (configuration.mkGetRequest ["a"; "b"] ∅) "cfg"
  = ("SELECT * FROM cfg WHERE KEY IN ('a','b')", None).
Proof. vm_compute. reflexivity. Qed.

Example buildQuery_two_filters :
  QueryBuilder.buildQuery_in [("env", "prod"); ("tier", "web")]
    (configuration.mkGetRequest ["a"] {[ "env" := "prod"; "tier" := "web" ]}) "cfg"
  = ("SELECT * FROM cfg WHERE KEY IN ('a') AND env='prod' AND tier='web'", None).
Proof. vm_compute. reflexivity. Qed.

Example parseMetadata_missing_connection_string :
  snd (Parser.parseMetadata Parser.example_ParseDuration
         (configuration.mkMetadata {[ "table" := "cfg" ]}))
  = Some (Go.errorString "missing postgreSQL connection string").
Proof. vm_compute. reflexivity. Qed.

Example parseMetadata_missing_table :
  snd (Parser.parseMetadata Parser.example_ParseDuration
         (configuration.mkMetadata {[ "connectionString" := "host=db"; "table" := "" ]}))
  = Some (Go.errorString "missing postgreSQL configuration table name").
Proof. vm_compute. reflexivity. Qed.

Example parseMetadata_non_ascii_table :
  snd (Parser.parseMetadata Parser.example_ParseDuration
         (configuration.mkMetadata
            {[ "connectionString" := "host=db";
               "table" := String (ascii_of_nat 195) (String (ascii_of_nat 169) "") ]}))
  = Some (Go.errorString
            ("invalid table name : '"
               +:+ String (ascii_of_nat 195) (String (ascii_of_nat 169) "")
               +:+ "'. non-ascii characters are not supported")).
Proof. vm_compute. reflexivity. Qed.

Example parseMetadata_with_timeout :
  Parser.parseMetadata Parser.example_ParseDuration
    (configuration.mkMetadata
       {[ "connectionString" := "host=db"; "table" := "cfg"; "connMaxIdleTime" := "30s" ]})
  = (Parser.mkmetadata 30000000000%Z "host=db" "cfg", None).
Proof. vm_compute. reflexivity. Qed.

Example uuid_String_sample :
  uuid.String_ (map ascii_of_nat [0; 17; 34; 51; 68; 85; 102; 119;
                                  136; 153; 170; 187; 204; 221; 238; 255])
  = "00112233-4455-6677-8899-aabbccddeeff".
Proof. vm_compute. reflexivity. Qed.

Example row_loop_mixed_case :
  Decoder.row_loop Decoder.ascii_ToLower
    [("Key", Decoder.JString "k1"); ("Value", Decoder.JString "v1");
     ("Version", Decoder.JString "1");
     ("Metadata", Decoder.JMap [("m", Decoder.JString "x")])]
    Decoder.locals_init
  = inr (Decoder.mkLocals "k1" "v1" "1" {[ "m" := "x" ]}).
Proof. vm_compute. reflexivity. Qed.

Example Unsubscribe_unknown_id :
  Registry.Unsubscribe Store.NewPostgresConfigurationStore Registry.Runtime_init "nobody"
  = Store.Returned (Store.NewPostgresConfigurationStore, Registry.Runtime_init).
Proof. vm_compute. reflexivity. Qed.

(** ** Strings *)

Lemma append_String (c : ascii) (s t : string) : String c s +:+ t = String c (s +:+ t).
Proof. reflexivity. Qed.

Lemma append_empty_l (t : string) : "" +:+ t = t.
Proof. reflexivity. Qed.

Lemma append_empty_r (s : string) : s +:+ "" = s.
Proof. induction s as [|c s IH]; [reflexivity|]. by rewrite append_String, IH. Qed.

Lemma append_assoc (s t u : string) : (s +:+ t) +:+ u = s +:+ (t +:+ u).
Proof.
  induction s as [|c s IH]; [reflexivity|].
  by rewrite !append_String, IH.
Qed.

(** ** The query builder *)

Section QueryBuilderFacts.
Import configuration QueryBuilder Rendering.

(** The loop writes the clauses of the entries it visits, separated by
    [" AND "]: the counter [j] reaches [i] exactly at the last entry. *)
Lemma range_loop_join (i : nat) (order : list (string * string)) :
  ∀ (j : nat) (s : string),
    i = (j + length order)%nat ->
    range_loop i j order s = s +:+ Go.Join (map clause order) " AND ".
Proof.
  induction order as [|kv rest IH]; intros j s Hi.
  - cbn. by rewrite append_empty_r.
  - cbn [range_loop]. destruct rest as [|kv' rest'].
    + cbn in Hi. replace (S j <? i)%nat with false
        by (symmetry; apply Nat.ltb_ge; lia).
      reflexivity.
    + replace (S j <? i)%nat with true
        by (symmetry; apply Nat.ltb_lt; cbn in Hi; lia).
      rewrite IH by (cbn in *; lia).
      change (Go.Join (map clause (kv :: kv' :: rest')) " AND ")
        with (clause kv +:+ " AND " +:+ Go.Join (map clause (kv' :: rest')) " AND ").
      by rewrite !append_assoc.
Qed.

Lemma range_order_length (md : gmap string string) (order : list (string * string)) :
  range_order md order -> length order = size md.
Proof.
  unfold range_order. intros ->. by rewrite length_map_to_list.
Qed.

Lemma buildQuery_in_shape (order : list (string * string)) (req : GetRequest)
    (configTable : string) :
  range_order (ReqMetadata req) order ->
  buildQuery_in order req configTable =
    (select_part (Keys req) configTable +:+ filter_part (map clause order), None).
Proof.
  intros Hord. pose proof (range_order_length _ _ Hord) as Hlen.
  unfold buildQuery_in. f_equal.
  assert (Hsel :
    (if decide (length (Keys req) = 0%nat)
     then "SELECT * FROM " +:+ configTable
     else ("SELECT * FROM " +:+ configTable +:+ " WHERE KEY IN ('")
            +:+ Go.Join (Keys req) "','" +:+ "')")
    = select_part (Keys req) configTable).
  { destruct (Keys req) as [|k ks]; cbn [length select_part].
    - by rewrite decide_True.
    - rewrite decide_False by done. by rewrite !append_assoc. }
  rewrite Hsel. clear Hsel.
  destruct order as [|kv rest].
  - cbn in Hlen. rewrite decide_False by lia. cbn. by rewrite append_empty_r.
  - rewrite decide_True by (cbn in Hlen; lia).
    rewrite range_loop_join by (cbn in *; lia).
    reflexivity.
Qed.

Lemma buildQuery_in_nil_error (order : list (string * string)) (req : GetRequest)
    (configTable : string) :
  buildQuery_in order req configTable = (fst (buildQuery_in order req configTable), None).
Proof. reflexivity. Qed.

Lemma range_order_exists (md : gmap string string) :
  range_order md (map_to_list md).
Proof. unfold range_order. reflexivity. Qed.

(** The text of a clause: the filter's key, [='], its value and [']. *)
Lemma map_clause_text (order : list (string * string)) :
  map (fun kv : string * string => fst kv +:+ "='" +:+ snd kv +:+ "'") order
  = map clause order.
Proof. reflexivity. Qed.

(** C6. [buildQuery] always returns, with a nil error and a query of this
    form: with no keys and no metadata exactly the plain SELECT; with keys,
    the SELECT restricted by the comma-joined quoted IN-list; with metadata,
    followed by one equality clause [key='value'] per entry of the mapping
    (the entries in the order the [range] visited them), joined by AND. *)
Theorem buildQuery_returns_query (req : GetRequest) (configTable : string) :
  (∃ query, buildQuery req configTable (query, None)) ∧
  (∀ res, buildQuery req configTable res ->
     snd res = None ∧
     (Keys req = [] -> ReqMetadata req = ∅ ->
        fst res = "SELECT * FROM " +:+ configTable) ∧
     ∃ order,
       order ≡ₚ map_to_list (ReqMetadata req) ∧
       fst res =
         (if decide (Keys req = [])
          then "SELECT * FROM " +:+ configTable
          else "SELECT * FROM " +:+ configTable +:+ " WHERE KEY IN ('"
                 +:+ Go.Join (Keys req) "','" +:+ "')")
         +:+
         (if decide (ReqMetadata req = ∅)
          then ""
          else " AND " +:+
               Go.Join (map (fun kv : string * string =>
                               fst kv +:+ "='" +:+ snd kv +:+ "'") order)
                       " AND ")).
Proof.
  split.
  - eexists. exists (map_to_list (ReqMetadata req)).
    split; [apply range_order_exists|].
    by rewrite buildQuery_in_shape by apply range_order_exists.
  - intros res (order & Hord & ->).
    rewrite buildQuery_in_shape by done. cbn [fst snd].
    split; [done|]. split.
    + intros Hk Hm. rewrite Hk. unfold range_order in Hord.
      rewrite Hm, map_to_list_empty in Hord.
      apply Permutation_nil_r in Hord. subst order.
      cbn. by rewrite append_empty_r.
    + exists order. split; [done|].
      change (map (fun kv : string * string => fst kv +:+ "='" +:+ snd kv +:+ "'") order)
        with (map clause order).
      f_equal.
      * destruct (Keys req); [by rewrite decide_True|by rewrite decide_False].
      * destruct order as [|kv rest].
        -- unfold range_order in Hord. symmetry in Hord.
           apply Permutation_nil_r in Hord.
           apply map_to_list_empty_iff in Hord.
           by rewrite decide_True.
        -- rewrite decide_False; [done|]. intros Hm.
           unfold range_order in Hord.
           rewrite Hm, map_to_list_empty in Hord.
           by apply Permutation_nil_r in Hord.
Qed.

Lemma buildQuery_returns_query_witness :
  snd ("SELECT * FROM cfg WHERE KEY IN ('a','b') AND tier='web'", @None Go.error) = None ∧
  (Keys (mkGetRequest ["a"; "b"] {[ "tier" := "web" ]}) = [] ->
   ReqMetadata (mkGetRequest ["a"; "b"] {[ "tier" := "web" ]}) = ∅ ->
   fst ("SELECT * FROM cfg WHERE KEY IN ('a','b') AND tier='web'", @None Go.error)
     = "SELECT * FROM " +:+ "cfg") ∧
  ∃ order,
    order ≡ₚ map_to_list (ReqMetadata (mkGetRequest ["a"; "b"] {[ "tier" := "web" ]})) ∧
    fst ("SELECT * FROM cfg WHERE KEY IN ('a','b') AND tier='web'", @None Go.error) =
      (if decide (Keys (mkGetRequest ["a"; "b"] {[ "tier" := "web" ]}) = [])
       then "SELECT * FROM " +:+ "cfg"
       else "SELECT * FROM " +:+ "cfg" +:+ " WHERE KEY IN ('"
              +:+ Go.Join (Keys (mkGetRequest ["a"; "b"] {[ "tier" := "web" ]})) "','"
              +:+ "')")
      +:+
      (if decide (ReqMetadata (mkGetRequest ["a"; "b"] {[ "tier" := "web" ]}) = ∅)
       then ""
       else " AND " +:+
            Go.Join (map (fun kv : string * string =>
                            fst kv +:+ "='" +:+ snd kv +:+ "'") order)
                    " AND ").
Proof.
  apply (proj2 (buildQuery_returns_query
                  (mkGetRequest ["a"; "b"] {[ "tier" := "web" ]}) "cfg")).
  exists [("tier", "web")]. split.
  - unfold range_order. cbn [ReqMetadata]. by rewrite map_to_list_singleton.
  - vm_compute. reflexivity.
Defined.

(** C8, as stated, fails: with two filters the two visiting orders of the
    mapping give two different queries. *)
Lemma buildQuery_order_not_fixed :
  ¬ (∀ r1 r2,
       buildQuery (mkGetRequest [] {[ "a" := "1"; "b" := "2" ]}) "cfg" r1 ->
       buildQuery (mkGetRequest [] {[ "a" := "1"; "b" := "2" ]}) "cfg" r2 ->
       r1 = r2).
Proof.
  intros Hdet.
  assert (Hperm : [("a", "1"); ("b", "2")]
                    ≡ₚ map_to_list ({[ "a" := "1"; "b" := "2" ]} : gmap string string)).
  { rewrite map_to_list_insert by done. by rewrite map_to_list_singleton. }
  specialize (Hdet (buildQuery_in [("a", "1"); ("b", "2")]
                      (mkGetRequest [] {[ "a" := "1"; "b" := "2" ]}) "cfg")
                   (buildQuery_in [("b", "2"); ("a", "1")]
                      (mkGetRequest [] {[ "a" := "1"; "b" := "2" ]}) "cfg")).
  assert (Heq : buildQuery_in [("a", "1"); ("b", "2")]
                  (mkGetRequest [] {[ "a" := "1"; "b" := "2" ]}) "cfg"
                = buildQuery_in [("b", "2"); ("a", "1")]
                  (mkGetRequest [] {[ "a" := "1"; "b" := "2" ]}) "cfg").
  { apply Hdet.
    - exists [("a", "1"); ("b", "2")]. by split.
    - exists [("b", "2"); ("a", "1")]. split; [|done].
      unfold range_order. cbn [ReqMetadata]. rewrite <- Hperm. apply perm_swap. }
  vm_compute in Heq. discriminate Heq.
Qed.

(** C8, amended. Two calls with the same input return queries with the
    same SELECT part and the same equality clauses, one per filter, the
    clauses of one call being a rearrangement of those of the other; the
    two queries are equal when the mapping has at most one entry. *)
Theorem buildQuery_same_clauses (req : GetRequest) (configTable : string)
    (r1 r2 : string * option Go.error) :
  buildQuery req configTable r1 ->
  buildQuery req configTable r2 ->
  ∃ order1 order2,
    order1 ≡ₚ map_to_list (ReqMetadata req) ∧
    order2 ≡ₚ map_to_list (ReqMetadata req) ∧
    map clause order1 ≡ₚ map clause order2 ∧
    r1 = (select_part (Keys req) configTable +:+ filter_part (map clause order1), None) ∧
    r2 = (select_part (Keys req) configTable +:+ filter_part (map clause order2), None) ∧
    (size (ReqMetadata req) ≤ 1 -> r1 = r2).
Proof.
  intros (o1 & H1 & ->) (o2 & H2 & ->).
  exists o1, o2. unfold range_order in *.
  rewrite !buildQuery_in_shape by done.
  repeat split; try done.
  - by rewrite H1, H2.
  - intros Hsz.
    assert (o1 = o2) as ->; [|done].
    pose proof (Permutation_length H1) as L1.
    rewrite length_map_to_list in L1.
    assert (Hp : o1 ≡ₚ o2) by (by rewrite H1, H2).
    destruct o1 as [|x [|y o1]]; cbn in L1; [| |lia].
    + by apply Permutation_nil_l in Hp.
    + by apply Permutation_singleton_l in Hp.
Qed.

Lemma buildQuery_same_clauses_witness :
  ∃ order1 order2,
    order1 ≡ₚ map_to_list (ReqMetadata (mkGetRequest ["k"] {[ "env" := "prod" ]})) ∧
    order2 ≡ₚ map_to_list (ReqMetadata (mkGetRequest ["k"] {[ "env" := "prod" ]})) ∧
    map clause order1 ≡ₚ map clause order2 ∧
    ("SELECT * FROM cfg WHERE KEY IN ('k') AND env='prod'", @None Go.error)
      = (select_part (Keys (mkGetRequest ["k"] {[ "env" := "prod" ]})) "cfg"
           +:+ filter_part (map clause order1), None) ∧
    ("SELECT * FROM cfg WHERE KEY IN ('k') AND env='prod'", @None Go.error)
      = (select_part (Keys (mkGetRequest ["k"] {[ "env" := "prod" ]})) "cfg"
           +:+ filter_part (map clause order2), None) ∧
    (size (ReqMetadata (mkGetRequest ["k"] {[ "env" := "prod" ]})) ≤ 1 ->
     ("SELECT * FROM cfg WHERE KEY IN ('k') AND env='prod'", @None Go.error)
       = ("SELECT * FROM cfg WHERE KEY IN ('k') AND env='prod'", @None Go.error)).
Proof.
  assert (Hb : buildQuery (mkGetRequest ["k"] {[ "env" := "prod" ]}) "cfg"
                 ("SELECT * FROM cfg WHERE KEY IN ('k') AND env='prod'", None)).
  { exists [("env", "prod")]. split.
    - unfold range_order. cbn [ReqMetadata]. by rewrite map_to_list_singleton.
    - vm_compute. reflexivity. }
  exact (buildQuery_same_clauses _ _ _ _ Hb Hb).
Defined.

(** A byte that does not occur in [w] cannot lie inside an occurrence of
    [w]: an occurrence in [a ++ c :: b] is an occurrence in [a] or in [b]. *)
Lemma HasPrefix_separator (w : string) :
  ∀ (a : string) (c : ascii) (b : string),
    avoids c w = true ->
    Go.HasPrefix (a +:+ String c b) w = Go.HasPrefix a w.
Proof.
  induction w as [|y w IH]; intros a c b Hav.
  - by destruct a.
  - cbn in Hav. apply andb_prop in Hav as [Hy Hw].
    destruct a as [|x a].
    + rewrite append_empty_l. cbn [Go.HasPrefix].
      apply negb_true_iff in Hy. by rewrite Hy.
    + rewrite append_String. cbn [Go.HasPrefix]. by rewrite (IH a c b Hw).
Qed.

Lemma Contains_unfold (s w : string) :
  Go.Contains s w =
    Go.HasPrefix s w || match s with EmptyString => false | String _ s' => Go.Contains s' w end.
Proof. by destruct s. Qed.

(** [HasPrefix] and [Contains] mean what their names say. *)
Lemma HasPrefix_spec (w : string) :
  ∀ s, Go.HasPrefix s w = true ↔ ∃ b, s = w +:+ b.
Proof.
  induction w as [|c w IH]; intros s.
  - split; [intros _; by exists s|by destruct s].
  - destruct s as [|d s]; cbn [Go.HasPrefix].
    + split; [done|]. by intros [b Hb].
    + rewrite andb_true_iff, IH. split.
      * intros [Hc [b ->]]. apply Ascii.eqb_eq in Hc as ->. by exists b.
      * intros [b Hb]. rewrite append_String in Hb. injection Hb as -> ->.
        split; [apply Ascii.eqb_refl|by exists b].
Qed.

Lemma Contains_spec (w s : string) :
  Go.Contains s w = true ↔ ∃ a b, s = a +:+ w +:+ b.
Proof.
  induction s as [|d s IH]; rewrite Contains_unfold, orb_true_iff, HasPrefix_spec.
  - split.
    + intros [[b Hb]|?]; [|done]. by exists "", b.
    + intros (a & b & Hab). left. destruct a; [by exists b|done].
  - rewrite IH. split.
    + intros [[b Hb]|(a & b & ->)]; [by exists "", b|]. by exists (String d a), b.
    + intros (a & b & Hab). destruct a as [|d' a].
      * left. by exists b.
      * right. rewrite append_String in Hab. injection Hab as -> ->. by exists a, b.
Qed.

Lemma Contains_separator (w a : string) (c : ascii) (b : string) :
  avoids c w = true -> w ≠ "" ->
  Go.Contains (a +:+ String c b) w = Go.Contains a w || Go.Contains b w.
Proof.
  intros Hav Hw. induction a as [|x a IH].
  - rewrite append_empty_l.
    rewrite (Contains_unfold (String c b)), (Contains_unfold "").
    rewrite <- (append_empty_l (String c b)), HasPrefix_separator by done.
    by rewrite orb_false_r.
  - rewrite append_String.
    rewrite (Contains_unfold (String x _)), (Contains_unfold (String x a)).
    rewrite IH.
    rewrite <- append_String, HasPrefix_separator by done.
    by rewrite orb_assoc.
Qed.

Lemma Contains_clause_WHERE (k v rest : string) :
  Go.Contains (clause (k, v) +:+ rest) "WHERE" =
    Go.Contains k "WHERE" || Go.Contains v "WHERE" || Go.Contains rest "WHERE".
Proof.
  unfold clause. cbn [fst snd].
  replace ((k +:+ "='" +:+ v +:+ "'") +:+ rest)
    with (k +:+ String "=" ("" +:+ String "'" (v +:+ String "'" rest)))
    by (by rewrite !append_assoc).
  rewrite !Contains_separator by done.
  change (Go.Contains "" "WHERE") with false.
  by rewrite orb_false_l, orb_assoc.
Qed.

(** A WHERE occurs among the joined clauses exactly when it occurs in the
    key or in the value of one of them. *)
Lemma Contains_clauses_WHERE (order : list (string * string)) :
  Go.Contains (Go.Join (map clause order) " AND ") "WHERE"
  = existsb (fun kv : string * string =>
               Go.Contains (fst kv) "WHERE" || Go.Contains (snd kv) "WHERE") order.
Proof.
  induction order as [|[k v] rest IH]; [done|].
  destruct rest as [|kv' rest'].
  - cbn [map Go.Join existsb fst snd]. rewrite <- (append_empty_r (clause (k, v))).
    rewrite Contains_clause_WHERE.
    change (Go.Contains "" "WHERE") with false. by rewrite !orb_false_r.
  - change (Go.Join (map clause ((k, v) :: kv' :: rest')) " AND ")
      with (clause (k, v) +:+
            ("" +:+ String " " ("AND" +:+ String " "
               (Go.Join (map clause (kv' :: rest')) " AND ")))).
    rewrite Contains_clause_WHERE, !Contains_separator by done.
    rewrite IH.
    change (Go.Contains "" "WHERE") with false.
    change (Go.Contains "AND" "WHERE") with false.
    cbn [existsb fst snd orb]. reflexivity.
Qed.

(** C10, as stated, fails: a table name may itself hold a WHERE (this one
    is ASCII and short enough to be accepted as a table name), and so does
    the query then. *)
Lemma buildQuery_table_brings_WHERE :
  ¬ (∀ res,
       buildQuery (mkGetRequest [] {[ "env" := "prod" ]}) "cfg WHERE true" res ->
       Go.Contains (fst res) "WHERE" = false).
Proof.
  intros Hno.
  specialize (Hno (buildQuery_in [("env", "prod")]
                     (mkGetRequest [] {[ "env" := "prod" ]}) "cfg WHERE true")).
  assert (Hc : Go.Contains
                 (fst (buildQuery_in [("env", "prod")]
                         (mkGetRequest [] {[ "env" := "prod" ]}) "cfg WHERE true"))
                 "WHERE" = false).
  { apply Hno. exists [("env", "prod")]. split; [|done].
    unfold range_order. cbn [ReqMetadata]. by rewrite map_to_list_singleton. }
  vm_compute in Hc. discriminate Hc.
Qed.

(** C10, amended. With no keys and at least one filter the query is the
    plain SELECT directly followed by [" AND "] and the equality clauses
    [key='value'], joined by AND. The builder writes no WHERE of its own:
    the query contains one exactly when the table name, or the key or the
    value of a filter, contains one. *)
Theorem buildQuery_filters_without_keys (req : GetRequest) (configTable : string)
    (res : string * option Go.error) :
  Keys req = [] ->
  ReqMetadata req ≠ ∅ ->
  buildQuery req configTable res ->
  ∃ order,
    order ≡ₚ map_to_list (ReqMetadata req) ∧
    res = ("SELECT * FROM " +:+ configTable +:+ " AND "
             +:+ Go.Join (map (fun kv : string * string =>
                                 fst kv +:+ "='" +:+ snd kv +:+ "'") order)
                         " AND ", None) ∧
    Go.Contains (fst res) "WHERE"
    = Go.Contains configTable "WHERE"
      || existsb (fun kv : string * string =>
                    Go.Contains (fst kv) "WHERE" || Go.Contains (snd kv) "WHERE") order.
Proof.
  intros Hk Hm (order & Hord & ->).
  exists order. unfold range_order in Hord. split; [done|].
  change (map (fun kv : string * string => fst kv +:+ "='" +:+ snd kv +:+ "'") order)
    with (map clause order).
  rewrite buildQuery_in_shape by done. rewrite Hk. cbn [select_part fst].
  assert (Hne : order ≠ []).
  { intros ->. symmetry in Hord. apply Permutation_nil_r in Hord.
    by apply map_to_list_empty_iff in Hord. }
  destruct order as [|kv rest]; [done|]. cbn [map filter_part].
  split; [by rewrite !append_assoc|].
  replace (("SELECT * FROM " +:+ configTable) +:+
             " AND " +:+ Go.Join (clause kv :: map clause rest) " AND ")
    with ("SELECT * FROM" +:+ String " " (configTable +:+ String " "
            ("AND" +:+ String " " (Go.Join (map clause (kv :: rest)) " AND "))))
    by (by rewrite !append_assoc).
  rewrite !Contains_separator by done.
  rewrite Contains_clauses_WHERE.
  change (Go.Contains "SELECT * FROM" "WHERE") with false.
  change (Go.Contains "AND" "WHERE") with false.
  reflexivity.
Qed.

Lemma buildQuery_filters_without_keys_witness :
  ∃ order,
    order ≡ₚ map_to_list (ReqMetadata (mkGetRequest [] {[ "tier" := "web" ]})) ∧
    ("SELECT * FROM cfg AND tier='web'", @None Go.error)
      = ("SELECT * FROM " +:+ "cfg" +:+ " AND "
           +:+ Go.Join (map (fun kv : string * string =>
                               fst kv +:+ "='" +:+ snd kv +:+ "'") order)
                       " AND ", None) ∧
    Go.Contains (fst ("SELECT * FROM cfg AND tier='web'", @None Go.error)) "WHERE"
    = Go.Contains "cfg" "WHERE"
      || existsb (fun kv : string * string =>
                    Go.Contains (fst kv) "WHERE" || Go.Contains (snd kv) "WHERE") order.
Proof.
  apply (buildQuery_filters_without_keys (mkGetRequest [] {[ "tier" := "web" ]}) "cfg").
  - reflexivity.
  - cbn [ReqMetadata]. apply insert_non_empty.
  - exists [("tier", "web")]. split.
    + unfold range_order. cbn [ReqMetadata]. by rewrite map_to_list_singleton.
    + vm_compute. reflexivity.
Defined.

End QueryBuilderFacts.

(** ** Options parsing *)

Section ParserFacts.
Import configuration Parser.

Lemma nonempty_true (s : string) : s ≠ "" -> nonempty s = true.
Proof.
  intros Hs. unfold nonempty. apply negb_true_iff.
  by apply String.eqb_neq.
Qed.

(** On options with a usable connection string and table name, parsing
    reaches the idle-timeout step with those two fields set. *)
Lemma parseMetadata_valid_prefix (pd : string -> Go.error + Duration)
    (md : Metadata) (conn tbl : string) :
  Properties md !! connectionStringKey = Some conn -> conn ≠ "" ->
  Properties md !! configtablekey = Some tbl -> tbl ≠ "" ->
  IsASCII tbl = true -> String.length tbl ≤ maxIdentifierLength ->
  parseMetadata pd md =
    match Properties md !! connMaxIdleTimeKey with
    | Some mxTimeout =>
        if nonempty mxTimeout then
          match pd mxTimeout with
          | inr t => (mkmetadata t conn tbl, None)
          | inl _ => (mkmetadata 0%Z conn tbl, Some (Go.errorString ErrorMissinMaxTimeout))
          end
        else (mkmetadata 0%Z conn tbl, None)
    | None => (mkmetadata 0%Z conn tbl, None)
    end.
Proof.
  intros Hc Hcne Ht Htne Hascii Hlen. unfold parseMetadata.
  rewrite Hc, (nonempty_true _ Hcne), Ht, (nonempty_true _ Htne), Hascii.
  cbn [negb].
  replace (maxIdentifierLength <? String.length tbl) with false
    by (symmetry; apply Nat.ltb_ge; lia).
  reflexivity.
Qed.

(** C5, as stated, fails: without [connMaxIdleTime] the parsed idle timeout
    is the zero duration, not a default; and an empty [connMaxIdleTime],
    which is not a duration, is accepted like an absent one. *)
Lemma parseMetadata_no_default_timeout :
  parseMetadata example_ParseDuration
    (mkMetadata {[ "connectionString" := "host=db"; "table" := "cfg" ]})
  = (mkmetadata 0%Z "host=db" "cfg", None)
  ∧ example_ParseDuration "" = inl (Go.errorString "time: invalid duration")
  ∧ parseMetadata example_ParseDuration
      (mkMetadata {[ "connectionString" := "host=db"; "table" := "cfg";
                     "connMaxIdleTime" := "" ]})
    = (mkmetadata 0%Z "host=db" "cfg", None).
Proof. repeat split; vm_compute; reflexivity. Qed.

(** C5, amended. With a usable connection string and table name: when
    [connMaxIdleTime] is absent, parsing succeeds and the idle timeout is
    the zero duration; when it is present, not empty and not a duration,
    parsing fails with the max-timeout error. *)
Theorem parseMetadata_idle_timeout (pd : string -> Go.error + Duration)
    (md : Metadata) (conn tbl : string) :
  Properties md !! connectionStringKey = Some conn -> conn ≠ "" ->
  Properties md !! configtablekey = Some tbl -> tbl ≠ "" ->
  IsASCII tbl = true -> String.length tbl ≤ maxIdentifierLength ->
  (Properties md !! connMaxIdleTimeKey = None ->
     parseMetadata pd md = (mkmetadata 0%Z conn tbl, None)) ∧
  (∀ mxTimeout err,
     Properties md !! connMaxIdleTimeKey = Some mxTimeout ->
     mxTimeout ≠ "" ->
     pd mxTimeout = inl err ->
     snd (parseMetadata pd md) = Some (Go.errorString ErrorMissinMaxTimeout)).
Proof.
  intros Hc Hcne Ht Htne Hascii Hlen.
  rewrite (parseMetadata_valid_prefix pd md conn tbl) by done.
  split.
  - by intros ->.
  - intros mx err -> Hne Herr. by rewrite (nonempty_true _ Hne), Herr.
Qed.

Lemma parseMetadata_idle_timeout_witness :
  (Properties (mkMetadata {[ "connectionString" := "host=db"; "table" := "cfg";
                             "connMaxIdleTime" := "soon" ]})
     !! connMaxIdleTimeKey = None ->
   parseMetadata example_ParseDuration
     (mkMetadata {[ "connectionString" := "host=db"; "table" := "cfg";
                    "connMaxIdleTime" := "soon" ]})
   = (mkmetadata 0%Z "host=db" "cfg", None)) ∧
  (∀ mxTimeout err,
     Properties (mkMetadata {[ "connectionString" := "host=db"; "table" := "cfg";
                               "connMaxIdleTime" := "soon" ]})
       !! connMaxIdleTimeKey = Some mxTimeout ->
     mxTimeout ≠ "" ->
     example_ParseDuration mxTimeout = inl err ->
     snd (parseMetadata example_ParseDuration
            (mkMetadata {[ "connectionString" := "host=db"; "table" := "cfg";
                           "connMaxIdleTime" := "soon" ]}))
     = Some (Go.errorString ErrorMissinMaxTimeout)).
Proof.
  apply (parseMetadata_idle_timeout example_ParseDuration
           (mkMetadata {[ "connectionString" := "host=db"; "table" := "cfg";
                          "connMaxIdleTime" := "soon" ]}) "host=db" "cfg").
  - vm_compute. reflexivity.
  - discriminate.
  - vm_compute. reflexivity.
  - discriminate.
  - vm_compute. reflexivity.
  - vm_compute. lia.
Defined.

End ParserFacts.

(** ** [Init] *)

Section InitFacts.
Import configuration Parser Store.

Variable time_ParseDuration : string -> Go.error + Duration.
Variable pgxpool_Connect : string -> Go.error + Pool.
Variable pool_Ping : Pool -> nat -> option Go.error.
Variable pool_QueryRow_Scan : Pool -> string -> string -> Go.error + bool.

(** C9. Once the options are parsed and the pool is connected and answers
    the pings, the error of [Init] is the error of the table-existence
    query or of its scan, and nothing else: whatever boolean the scan
    yields, [false] included, [Init] returns nil and keeps the pool. *)
Theorem Init_ignores_table_existence (p : ConfigurationStore) (md : Metadata)
    (m : metadata) (c : Pool) :
  client p = None ->
  parseMetadata time_ParseDuration md = (m, None) ->
  pgxpool_Connect (connectionString m) = inr c ->
  pool_Ping c 0 = None ->
  pool_Ping c 1 = None ->
  Go.Contains QueryTableExists "pg_tables" = true ∧
  (∀ exists_ : bool,
     pool_QueryRow_Scan c QueryTableExists (configTable m) = inr exists_ ->
     Init time_ParseDuration pgxpool_Connect pool_Ping pool_QueryRow_Scan p md
     = (mkStore m (Some c) (subscribeStopChanMap p),
        [LogDebug "Initializing PostgreSQL state store"], None)) ∧
  (∀ err : Go.error,
     pool_QueryRow_Scan c QueryTableExists (configTable m) = inl err ->
     snd (Init time_ParseDuration pgxpool_Connect pool_Ping pool_QueryRow_Scan p md)
     = Some err) ∧
  (∀ err : Go.error,
     snd (Init time_ParseDuration pgxpool_Connect pool_Ping pool_QueryRow_Scan p md)
     = Some err ->
     pool_QueryRow_Scan c QueryTableExists (configTable m) = inl err).
Proof.
  intros Hcl Hparse Hconn Hping0 Hping1.
  unfold Init, Connect. rewrite Hcl, Hparse, Hconn, Hping0, Hping1.
  cbn [store_metadata client subscribeStopChanMap].
  split; [by vm_compute|]. repeat split.
  - by intros b ->.
  - by intros err ->.
  - intros err. destruct (pool_QueryRow_Scan _ _ _); cbn; congruence.
Qed.

End InitFacts.

Lemma Init_ignores_table_existence_witness :
  Store.Init Parser.example_ParseDuration (fun _ => inr 7) (fun _ _ => None)
    (fun _ _ _ => inr false)
    Store.NewPostgresConfigurationStore
    (configuration.mkMetadata {[ "connectionString" := "host=db"; "table" := "cfg" ]})
  = (Store.mkStore (Parser.mkmetadata 0%Z "host=db" "cfg") (Some 7) ∅,
     [Store.LogDebug "Initializing PostgreSQL state store"], None).
Proof.
  refine (proj1 (proj2 (Init_ignores_table_existence
                   Parser.example_ParseDuration (fun _ => inr 7) (fun _ _ => None)
                   (fun _ _ _ => inr false)
                   Store.NewPostgresConfigurationStore
                   (configuration.mkMetadata
                      {[ "connectionString" := "host=db"; "table" := "cfg" ]})
                   (Parser.mkmetadata 0%Z "host=db" "cfg") 7
                   _ _ _ _ _)) false _).
  - reflexivity.
  - vm_compute. reflexivity.
  - reflexivity.
  - reflexivity.
  - reflexivity.
  - reflexivity.
Defined.

(** ** [Get] *)

Section GetFacts.
Import configuration Parser Store.

Variable pool_Query : Pool -> string -> Go.error + list Row.
Variable rows_Scan : Row -> option Go.error.
Variable json_Unmarshal_strings : string -> Go.error + gmap string string.

(** C7. When the query runs and yields no row (or the driver reports
    [ErrNoRows]), [Get] returns a response whose [Items] has no entry,
    with a nil error. *)
Theorem Get_no_rows (p : ConfigurationStore) (req : GetRequest) (c : Pool) :
  client p = Some c ->
  (∀ order, QueryBuilder.range_order (ReqMetadata req) order ->
     let query := fst (QueryBuilder.buildQuery_in order req (configTable (store_metadata p))) in
     pool_Query c query = inr [] ∨ pool_Query c query = inl Go.sql_ErrNoRows) ->
  (∃ res, Get pool_Query rows_Scan json_Unmarshal_strings p req res) ∧
  (∀ res, Get pool_Query rows_Scan json_Unmarshal_strings p req res ->
     ∃ response,
       res = Returned response ∧
       Go.map_len (Items response) = 0 ∧
       ∀ k, Go.map_index (Items response) k = None).
Proof.
  intros Hc Hq. split.
  - eexists. exists (map_to_list (ReqMetadata req)).
    split; [apply range_order_exists|reflexivity].
  - intros res (order & Hord & ->).
    exists (mkGetResponse Go.nilMap). split; [|done].
    unfold Get_in. rewrite buildQuery_in_nil_error, Hc.
    destruct (Hq order Hord) as [-> | ->]; done.
Qed.

(** Storing the first decoded row panics: [Items] of the response is the
    nil map when the loop starts, so no result with a row is returned. *)
Lemma Get_rows_first_row (r : Row) (rest : list Row) :
  match Get_rows rows_Scan json_Unmarshal_strings (r :: rest) (mkGetResponse Go.nilMap) with
  | Returned _ => False
  | Failed err =>
      rows_Scan r = Some err ∨
      (rows_Scan r = None ∧ json_Unmarshal_strings (col_metadata r) = inl err)
  | Panicked msg =>
      rows_Scan r = None ∧ (∃ v, json_Unmarshal_strings (col_metadata r) = inr v) ∧
      msg = "assignment to entry in nil map"
  end.
Proof.
  cbn [Get_rows].
  destruct (rows_Scan r) as [err|]; [by left|].
  destruct (json_Unmarshal_strings (col_metadata r)) as [err|v]; [by right|].
  cbn. eauto.
Qed.

End GetFacts.

Lemma Get_no_rows_witness :
  (∃ res, Store.Get (fun _ _ => inr []) (fun _ => None) (fun _ => inr ∅)
            (Store.mkStore (Parser.mkmetadata 0%Z "host=db" "cfg") (Some 7) ∅)
            (configuration.mkGetRequest [] ∅) res) ∧
  (∀ res, Store.Get (fun _ _ => inr []) (fun _ => None) (fun _ => inr ∅)
            (Store.mkStore (Parser.mkmetadata 0%Z "host=db" "cfg") (Some 7) ∅)
            (configuration.mkGetRequest [] ∅) res ->
     ∃ response,
       res = Store.Returned response ∧
       Go.map_len (configuration.Items response) = 0 ∧
       ∀ k, Go.map_index (configuration.Items response) k = None).
Proof.
  apply (Get_no_rows (fun _ _ => inr []) (fun _ => None) (fun _ => inr ∅)
           (Store.mkStore (Parser.mkmetadata 0%Z "host=db" "cfg") (Some 7) ∅)
           (configuration.mkGetRequest [] ∅) 7).
  - reflexivity.
  - intros order Hord. left. reflexivity.
Defined.

(** C3 on a result set holding the single row
    (k1, v1, 1, [{"owner":"x"}]), whatever the driver and the JSON decoder
    answer: [Get] does not return a response. Either the scan or the
    decoding fails, or the store into [Items] panics, the response having
    been built with a nil map; and the key under which the item is stored
    is the empty string, [key] having been passed to [Scan] by value. *)
Theorem Get_one_row_not_returned
    (rows_Scan : Store.Row -> option Go.error)
    (json_Unmarshal_strings : string -> Go.error + gmap string string) :
  match Store.Get_in
          (fun _ _ => inr [Store.mkRow "k1" "v1" "1" Samples.metadata_owner])
          rows_Scan json_Unmarshal_strings []
          (Store.mkStore (Parser.mkmetadata 0%Z "host=db" "cfg") (Some 7) ∅)
          (configuration.mkGetRequest [] ∅)
  with
  | Store.Returned _ => False
  | Store.Failed _ => True
  | Store.Panicked msg => msg = "assignment to entry in nil map"
  end.
Proof.
  unfold Store.Get_in. cbn.
  destruct (rows_Scan _); [done|].
  destruct (json_Unmarshal_strings _); done.
Qed.

(** ** The subscription registry *)

Section RegistryFacts.
Import configuration Parser Store Registry.

Lemma hexdigit_high_not_l (b : ascii) : uuid.hexdigit (N_of_ascii b / 16) ≠ "l"%char.
Proof. destruct b as [[] [] [] [] [] [] [] []]; vm_compute; discriminate. Qed.

(** An identifier starts with a hexadecimal digit, so it is never the
    name of a channel, which starts with [listen]. *)
Lemma uuid_String_not_channel (u : uuid.UUID) (configTable : string) :
  uuid.String_ u ≠ "listen " +:+ configTable.
Proof.
  change ("listen " +:+ configTable) with (String "l" ("isten " +:+ configTable)).
  destruct u as [|b u].
  - vm_compute. discriminate.
  - unfold uuid.String_. cbn [take firstn uuid.hex_Encode].
    rewrite append_String. intros [= Hc _].
    by apply (hexdigit_high_not_l b).
Qed.

Lemma registry_of_ids_channel (m : metadata) (st : ConfigurationStore * Runtime) :
  registry_of_ids m st ->
  subscribeStopChanMap (fst st) !! ("listen " +:+ configTable (store_metadata (fst st))) = None.
Proof.
  intros [_ Hids].
  destruct (subscribeStopChanMap (fst st) !! _) as [c|] eqn:Hl; [|done].
  destruct (Hids _ _ Hl) as [u Hu]. symmetry in Hu.
  by apply uuid_String_not_channel in Hu.
Qed.

Lemma reachable_registry_of_ids (m : metadata) (st : ConfigurationStore * Runtime) :
  reachable m st -> registry_of_ids m st.
Proof.
  induction 1 as [c|st call st' Hreach IH Hstep].
  - split; [done|]. intros k c'. cbn. by rewrite lookup_empty.
  - pose proof (registry_of_ids_channel _ _ IH) as Hnone.
    destruct IH as [Hm Hids]. destruct st as [p rt]. cbn [fst snd] in *.
    destruct call as [u|id]; cbn [step fst snd] in Hstep.
    + unfold Subscribe in Hstep. rewrite Hnone in Hstep. cbn in Hstep.
      injection Hstep as <-. split; [done|]. cbn [fst subscribeStopChanMap].
      intros k c. rewrite lookup_insert. case_decide as Hk.
      * intros _. by exists u.
      * apply Hids.
    + unfold Unsubscribe in Hstep.
      destruct (subscribeStopChanMap p !! id) as [old|] eqn:Hl.
      * destruct (close_chan old rt) as [rt'| |]; try discriminate.
        injection Hstep as <-. split; [done|]. cbn [fst subscribeStopChanMap].
        intros k c. rewrite lookup_delete. case_decide; [done|apply Hids].
      * injection Hstep as <-. by split.
Qed.

(** In every state the store reaches, [Subscribe] finds nothing under the
    channel name: it closes no stop channel, makes one more (open) channel
    and starts one more listener. *)
Lemma Subscribe_closes_nothing (m : metadata) (p : ConfigurationStore) (rt : Runtime)
    (u : uuid.UUID) :
  reachable m (p, rt) ->
  Subscribe p rt u =
    Returned (uuid.String_ u,
              mkStore (store_metadata p) (client p)
                      (<[uuid.String_ u := length (chans rt)]> (subscribeStopChanMap p)),
              mkRuntime (chans rt ++ [false])
                        (goroutines rt ++
                           [mkListener ("listen " +:+ configTable (store_metadata p))
                                       (uuid.String_ u) (length (chans rt))])).
Proof.
  intros Hreach. apply reachable_registry_of_ids, registry_of_ids_channel in Hreach.
  cbn [fst] in Hreach. unfold Subscribe. by rewrite Hreach.
Qed.

End RegistryFacts.

(** C1 on two calls of [Subscribe] on a fresh store for the table [cfg]:
    the calls return two distinct identifiers, and afterwards both stop
    channels are open and both listeners count as live. The first call
    registered its stop channel under its identifier, so the second, which
    looks under the channel name, finds nothing to close. *)
Theorem Subscribe_twice_both_open :
  match Registry.Subscribe
          (Store.mkStore (Parser.mkmetadata 0%Z "host=db" "cfg") (Some 7) ∅)
          Registry.Runtime_init (repeat (ascii_of_nat 17) 16)
  with
  | Store.Returned (id1, p1, rt1) =>
      match Registry.Subscribe p1 rt1 (repeat (ascii_of_nat 34) 16) with
      | Store.Returned (id2, p2, rt2) =>
          id1 = "11111111-1111-1111-1111-111111111111" ∧
          id2 = "22222222-2222-2222-2222-222222222222" ∧
          Store.subscribeStopChanMap p1 !! id1 = Some 0 ∧
          Store.subscribeStopChanMap p1 !! "listen cfg" = None ∧
          Registry.chans rt2 = [false; false] ∧
          Registry.live_listeners rt2 =
            [Registry.mkListener "listen cfg" id1 0;
             Registry.mkListener "listen cfg" id2 1]
      | _ => False
      end
  | _ => False
  end.
Proof. vm_compute. repeat split. Qed.

(** ** The payload decoder *)

Section DecoderFacts.
Import configuration Store Decoder.

Variable strings_ToLower : string -> string.
Variable json_Unmarshal : string -> Go.error + gmap string JValue.
Variable handler : UpdateEvent -> option Go.error.

(** When the payload decodes and its ["data"] is missing or is no object,
    the loop over the fields is skipped and the handler is called, once,
    with the event built from the initial values of the locals. *)
Lemma handleSubscribedChange_without_row (msg : Notification) (id : string)
    (payload : gmap string JValue) :
  json_Unmarshal (Payload msg) = inr payload ->
  (∀ row, payload !! "data" ≠ Some (JMap row)) ->
  handler_calls
    (fst (handleSubscribedChange strings_ToLower json_Unmarshal handler msg id))
  = [mkUpdateEvent {[ "" := mkItem "" "" ∅ ]} id].
Proof.
  intros Hdec Hrow. unfold handleSubscribedChange, handle_body. rewrite Hdec.
  assert (Hskip :
    match payload !! "data" with
    | Some (JMap row) => row_loop strings_ToLower row locals_init
    | _ => inr locals_init
    end = inr locals_init).
  { destruct (payload !! "data") as [[]|] eqn:E; try done. by destruct (Hrow entries). }
  rewrite Hskip. cbn [key value version m locals_init].
  by destruct (handler _).
Qed.

Lemma metadata_loop_panics (a : list (string * JValue)) :
  existsb (fun e => match snd e with JString _ => false | _ => true end) a = true ->
  ∀ m0, ∃ pv, metadata_loop a m0 = inl pv.
Proof.
  induction a as [|[k v] a IH]; intros Hex m0; [done|].
  cbn in Hex. cbn [metadata_loop].
  destruct v; cbn [assert_string]; eauto.
Qed.

Lemma field_panics_sound (k : string) (v : JValue) (st : locals) :
  field_panics strings_ToLower (k, v) = true ->
  ∃ pv, field strings_ToLower k v st = inl pv.
Proof.
  unfold field_panics, field. cbn [fst snd].
  destruct (String.eqb (strings_ToLower k) "key"); cbn [orb].
  { destruct v; intros; try done; cbn; eauto. }
  destruct (String.eqb (strings_ToLower k) "value"); cbn [orb].
  { destruct v; intros; try done; cbn; eauto. }
  destruct (String.eqb (strings_ToLower k) "version"); cbn [orb].
  { destruct v; intros; try done; cbn; eauto. }
  destruct (String.eqb (strings_ToLower k) "metadata"); [|done].
  destruct v; intros Hp; cbn [assert_map]; eauto.
  destruct (metadata_loop_panics _ Hp (m st)) as [pv ->]. eauto.
Qed.

Lemma row_loop_panics (row : list (string * JValue)) :
  existsb (field_panics strings_ToLower) row = true ->
  ∀ st, ∃ pv, row_loop strings_ToLower row st = inl pv.
Proof.
  induction row as [|[k v] row IH]; intros Hex st; [done|].
  cbn [existsb] in Hex. cbn [row_loop].
  destruct (field strings_ToLower k v st) as [pv|st'] eqn:Hf; [eauto|].
  apply orb_prop in Hex as [Hk|Hrest]; [|by apply IH].
  destruct (field_panics_sound k v st Hk) as [pv Hpv]. congruence.
Qed.

(** C4. A notification whose ["data"] object has a field of the wrong
    dynamic type (a [key], [value] or [version] that is no string, or a
    [metadata] that is no object of strings) makes the decoding panic; the
    panic is recovered in [handleSubscribedChange], which logs it, does not
    call the handler and returns normally, and the listener loop goes on
    with the notifications that follow. *)
Theorem handleSubscribedChange_recovers (msg : Notification) (id : string)
    (payload : gmap string JValue) (row : list (string * JValue)) :
  json_Unmarshal (Payload msg) = inr payload ->
  payload !! "data" = Some (JMap row) ->
  existsb (field_panics strings_ToLower) row = true ->
  ∃ pv,
    handleSubscribedChange strings_ToLower json_Unmarshal handler msg id
    = ([Logged (LogErrorf "panic in handleSubscribedChange method and recovered: %s"
                          (panic_Error pv))], None) ∧
    handler_calls
      (fst (handleSubscribedChange strings_ToLower json_Unmarshal handler msg id)) = [] ∧
    ∀ (rest : list Notification) (waitErr : Go.error) (quiet : bool),
      wait_loop strings_ToLower json_Unmarshal handler (msg :: rest) waitErr quiet id
      = (Logged (LogErrorf "panic in handleSubscribedChange method and recovered: %s"
                           (panic_Error pv))
           :: fst (wait_loop strings_ToLower json_Unmarshal handler rest waitErr quiet id),
         snd (wait_loop strings_ToLower json_Unmarshal handler rest waitErr quiet id)).
Proof.
  intros Hdec Hdata Hbad.
  destruct (row_loop_panics row Hbad locals_init) as [pv Hpv].
  exists pv.
  assert (Hh : handleSubscribedChange strings_ToLower json_Unmarshal handler msg id
    = ([Logged (LogErrorf "panic in handleSubscribedChange method and recovered: %s"
                          (panic_Error pv))], None)).
  { unfold handleSubscribedChange, handle_body. by rewrite Hdec, Hdata, Hpv. }
  split; [done|]. split; [by rewrite Hh|].
  intros rest waitErr quiet. cbn [wait_loop]. rewrite Hh.
  by destruct (wait_loop _ _ _ rest waitErr quiet id).
Qed.

(** The recovery boundary holds for every notification: no panic leaves
    [handleSubscribedChange]. *)
Lemma handleSubscribedChange_never_panics (msg : Notification) (id : string) :
  snd (handleSubscribedChange strings_ToLower json_Unmarshal handler msg id) = None.
Proof.
  unfold handleSubscribedChange.
  by destruct (handle_body _ _ _ msg id) as [effects [pv|]].
Qed.

(** So the listener loop ends only when the wait fails. *)
Lemma wait_loop_returns (pending : list Notification) (waitErr : Go.error)
    (quiet : bool) (id : string) :
  snd (wait_loop strings_ToLower json_Unmarshal handler pending waitErr quiet id)
  = TaskReturned.
Proof.
  induction pending as [|msg rest IH]; cbn [wait_loop].
  - by destruct quiet.
  - pose proof (handleSubscribedChange_never_panics msg id) as Hnp.
    destruct (handleSubscribedChange _ _ _ msg id) as [effects esc].
    cbn in Hnp. subst esc.
    by destruct (wait_loop _ _ _ rest waitErr quiet id).
Qed.

End DecoderFacts.

Lemma handleSubscribedChange_recovers_witness :
  ∃ pv,
    Decoder.handleSubscribedChange Decoder.ascii_ToLower Samples.sample_Unmarshal
      (fun _ => None) (Decoder.mkNotification 1 "cfg" Samples.payload_metadata_number) "id-1"
    = ([Decoder.Logged
          (Store.LogErrorf "panic in handleSubscribedChange method and recovered: %s"
                           (Decoder.panic_Error pv))], None) ∧
    Decoder.handler_calls
      (fst (Decoder.handleSubscribedChange Decoder.ascii_ToLower Samples.sample_Unmarshal
              (fun _ => None)
              (Decoder.mkNotification 1 "cfg" Samples.payload_metadata_number) "id-1")) = [] ∧
    ∀ (rest : list Decoder.Notification) (waitErr : Go.error) (quiet : bool),
      Decoder.wait_loop Decoder.ascii_ToLower Samples.sample_Unmarshal (fun _ => None)
        (Decoder.mkNotification 1 "cfg" Samples.payload_metadata_number :: rest)
        waitErr quiet "id-1"
      = (Decoder.Logged
           (Store.LogErrorf "panic in handleSubscribedChange method and recovered: %s"
                            (Decoder.panic_Error pv))
           :: fst (Decoder.wait_loop Decoder.ascii_ToLower Samples.sample_Unmarshal
                     (fun _ => None) rest waitErr quiet "id-1"),
         snd (Decoder.wait_loop Decoder.ascii_ToLower Samples.sample_Unmarshal
                (fun _ => None) rest waitErr quiet "id-1")).
Proof.
  apply (handleSubscribedChange_recovers Decoder.ascii_ToLower Samples.sample_Unmarshal
           (fun _ => None)
           (Decoder.mkNotification 1 "cfg" Samples.payload_metadata_number) "id-1"
           {[ "data" := Decoder.JMap
                [("Key", Decoder.JString "k1");
                 ("Metadata", Decoder.JMap [("m", Decoder.JFloat64 "1")])] ]}
           [("Key", Decoder.JString "k1");
            ("Metadata", Decoder.JMap [("m", Decoder.JFloat64 "1")])]).
  - vm_compute. reflexivity.
  - vm_compute. reflexivity.
  - vm_compute. reflexivity.
Defined.

(** C2 on the payloads [{}] and [{"data":5}]: both are JSON, the first has
    no ["data"] and in the second it is a number, and in both cases the
    handler is called, with an event holding one item under the empty key,
    with empty value, version and metadata. *)
Theorem handleSubscribedChange_calls_handler_without_row
    (handler : configuration.UpdateEvent -> option Go.error) (id : string) :
  Samples.sample_Unmarshal Samples.payload_empty = inr ∅ ∧
  Decoder.handler_calls
    (fst (Decoder.handleSubscribedChange Decoder.ascii_ToLower Samples.sample_Unmarshal
            handler (Decoder.mkNotification 1 "cfg" Samples.payload_empty) id))
  = [configuration.mkUpdateEvent {[ "" := configuration.mkItem "" "" ∅ ]} id] ∧
  Samples.sample_Unmarshal Samples.payload_data_number
  = inr {[ "data" := Decoder.JFloat64 "5" ]} ∧
  Decoder.handler_calls
    (fst (Decoder.handleSubscribedChange Decoder.ascii_ToLower Samples.sample_Unmarshal
            handler (Decoder.mkNotification 1 "cfg" Samples.payload_data_number) id))
  = [configuration.mkUpdateEvent {[ "" := configuration.mkItem "" "" ∅ ]} id].
Proof.
  split; [by vm_compute|]. split.
  - apply (handleSubscribedChange_without_row _ _ _ _ _ ∅); [by vm_compute|].
    intros row. by rewrite lookup_empty.
  - split; [by vm_compute|].
    apply (handleSubscribedChange_without_row _ _ _ _ _
             {[ "data" := Decoder.JFloat64 "5" ]}); [by vm_compute|].
    intros row. by rewrite lookup_singleton_eq.
Qed.

(** * Further properties *)

(** ** Options parsing: what is accepted and which error comes first *)

Section ParserCoverage.
Import configuration Parser Facts.

Variable pd : string -> Go.error + Duration.

Lemma nonempty_false (s : string) : nonempty s = false -> s = "".
Proof.
  unfold nonempty. intros H. apply negb_false_iff in H. by apply String.eqb_eq.
Qed.

Lemma nonempty_spec (s : string) : nonempty s = true -> s ≠ "".
Proof.
  unfold nonempty. intros H. apply negb_true_iff in H. by apply String.eqb_neq.
Qed.

Lemma parseMetadata_nil_error_accepted (md : Metadata) (m : metadata) :
  parseMetadata pd md = (m, None) -> accepted_options pd md m.
Proof.
  unfold parseMetadata, accepted_options.
  destruct (Properties md !! connectionStringKey) as [conn|]; [|done].
  destruct (nonempty conn) eqn:Hc; [|done].
  destruct (Properties md !! configtablekey) as [tbl|]; [|done].
  destruct (nonempty tbl) eqn:Ht; [|done].
  destruct (IsASCII tbl) eqn:Ha; [|done]. cbn [negb].
  destruct (maxIdentifierLength <? String.length tbl) eqn:Hl; [done|].
  apply Nat.ltb_ge in Hl. apply nonempty_spec in Hc, Ht.
  destruct (Properties md !! connMaxIdleTimeKey) as [mx|].
  - destruct (nonempty mx) eqn:Hm.
    + destruct (pd mx) as [err|t] eqn:Hpd; [done|].
      intros [= <-]. exists conn, tbl. cbn.
      apply nonempty_spec in Hm. repeat split; try done. by right.
    + intros [= <-]. exists conn, tbl. cbn.
      apply nonempty_false in Hm. repeat split; try done. by left.
  - intros [= <-]. exists conn, tbl. by cbn.
Qed.

(** [parseMetadata] returns a nil error exactly on the options with a
    non-empty connection string, a non-empty ASCII table name of at most 64
    bytes and an idle timeout that is absent, empty or a duration; the
    metadata returned carry these three values, the timeout being zero
    when absent or empty. *)
Theorem parseMetadata_accepts_exactly (md : Metadata) (m : metadata) :
  parseMetadata pd md = (m, None) ↔ accepted_options pd md m.
Proof.
  split; [apply parseMetadata_nil_error_accepted|].
  intros (conn & tbl & Hc & Hcne & Ht & Htne & Ha & Hl & Hmc & Hmt & Hto).
  rewrite (parseMetadata_valid_prefix pd md conn tbl) by done.
  destruct m as [idle c t]. cbn in Hmc, Hmt, Hto. subst c t.
  destruct (Properties md !! connMaxIdleTimeKey) as [mx|].
  - destruct Hto as [[-> ->] | [Hne Hpd]]; [done|].
    by rewrite (nonempty_true _ Hne), Hpd.
  - by rewrite Hto.
Qed.

(** The checks are made in a fixed order and the first failure decides the
    error: a missing or empty connection string hides every other fault;
    then a missing or empty table name; then a table name with a byte
    outside ASCII, whatever its length; then a table name longer than 64
    bytes, whatever the idle timeout. *)
Theorem parseMetadata_first_error (md : Metadata) :
  (Properties md !! connectionStringKey = None ∨
   Properties md !! connectionStringKey = Some "" ->
   parseMetadata pd md
   = (metadata_zero, Some (Go.errorString ErrorMissingConnectionString))) ∧
  (∀ conn, Properties md !! connectionStringKey = Some conn -> conn ≠ "" ->
     (Properties md !! configtablekey = None ∨
      Properties md !! configtablekey = Some "" ->
      parseMetadata pd md
      = (mkmetadata 0%Z conn "", Some (Go.errorString ErrorMissingTableName))) ∧
     (∀ tbl, Properties md !! configtablekey = Some tbl -> tbl ≠ "" ->
        (IsASCII tbl = false ->
         parseMetadata pd md
         = (mkmetadata 0%Z conn "",
            Some (Go.errorString
                    ("invalid table name : '" +:+ tbl
                       +:+ "'. non-ascii characters are not supported")))) ∧
        (IsASCII tbl = true -> maxIdentifierLength < String.length tbl ->
         parseMetadata pd md
         = (mkmetadata 0%Z conn "",
            Some (Go.errorString
                    ("field name is too long - tableName : '" +:+ tbl
                       +:+ "'. max allowed field length is 64 ")))))).
Proof.
  split.
  - unfold parseMetadata. by intros [-> | ->].
  - intros conn Hc Hcne. unfold parseMetadata.
    rewrite Hc, (nonempty_true _ Hcne). split.
    + by intros [-> | ->].
    + intros tbl Ht Htne. rewrite Ht, (nonempty_true _ Htne). split.
      * by intros ->.
      * intros -> Hlen. cbn [negb].
        by replace (maxIdentifierLength <? String.length tbl) with true
          by (symmetry; by apply Nat.ltb_lt).
Qed.

End ParserCoverage.

Lemma parseMetadata_first_error_witness :
  Parser.parseMetadata Parser.example_ParseDuration
    (configuration.mkMetadata {[ "table" := MoreSamples.table_accent ]})
  = (Parser.metadata_zero, Some (Go.errorString ErrorMissingConnectionString)) ∧
  Parser.parseMetadata Parser.example_ParseDuration
    (configuration.mkMetadata {[ "connectionString" := "host=db"; "table" := "" ]})
  = (Parser.mkmetadata 0%Z "host=db" "", Some (Go.errorString ErrorMissingTableName)) ∧
  Parser.parseMetadata Parser.example_ParseDuration
    (configuration.mkMetadata
       {[ "connectionString" := "host=db";
          "table" := MoreSamples.table_accent +:+ MoreSamples.table_65 ]})
  = (Parser.mkmetadata 0%Z "host=db" "",
     Some (Go.errorString
             ("invalid table name : '" +:+ (MoreSamples.table_accent +:+ MoreSamples.table_65)
                +:+ "'. non-ascii characters are not supported"))) ∧
  Parser.parseMetadata Parser.example_ParseDuration
    (configuration.mkMetadata
       {[ "connectionString" := "host=db"; "table" := MoreSamples.table_65;
          "connMaxIdleTime" := "soon" ]})
  = (Parser.mkmetadata 0%Z "host=db" "",
     Some (Go.errorString
             ("field name is too long - tableName : '" +:+ MoreSamples.table_65
                +:+ "'. max allowed field length is 64 "))).
Proof.
  split; [|split; [|split]].
  - apply (proj1 (parseMetadata_first_error Parser.example_ParseDuration _)).
    left. vm_compute. reflexivity.
  - refine (proj1 (proj2 (parseMetadata_first_error Parser.example_ParseDuration _)
                     "host=db" _ _) _).
    + vm_compute. reflexivity.
    + discriminate.
    + right. vm_compute. reflexivity.
  - refine (proj1 (proj2 (proj2 (parseMetadata_first_error Parser.example_ParseDuration _)
                            "host=db" _ _) _ _ _) _).
    + vm_compute. reflexivity.
    + discriminate.
    + vm_compute. reflexivity.
    + discriminate.
    + vm_compute. reflexivity.
  - refine (proj2 (proj2 (proj2 (parseMetadata_first_error Parser.example_ParseDuration _)
                            "host=db" _ _) _ _ _) _ _).
    + vm_compute. reflexivity.
    + discriminate.
    + vm_compute. reflexivity.
    + discriminate.
    + vm_compute. reflexivity.
    + vm_compute. lia.
Defined.

(** ** [Connect], [QueryRow] and [Init]: what success guarantees *)

Section InitCoverage.
Import configuration Parser Store Facts.

Variable time_ParseDuration : string -> Go.error + Duration.
Variable pgxpool_Connect : string -> Go.error + Pool.
Variable pool_Ping : Pool -> nat -> option Go.error.
Variable pool_QueryRow_Scan : Pool -> string -> string -> Go.error + bool.

(** [Connect] hands out a pool only after the driver built it and it
    answered the ping; otherwise it returns a new error whose message is
    the driver's, behind a prefix telling the two failures apart. The
    time-out argument has no part in the result. *)
Theorem Connect_result (conn : string) (maxTimeout : Duration) :
  match Connect pgxpool_Connect pool_Ping conn maxTimeout with
  | inr pool => pgxpool_Connect conn = inr pool ∧ pool_Ping pool 0 = None
  | inl e =>
      (∃ err, pgxpool_Connect conn = inl err ∧
         e = Go.errorString
               ("postgres configuration store connection error : " +:+ Go.Error err)) ∨
      (∃ pool pingErr, pgxpool_Connect conn = inr pool ∧
         pool_Ping pool 0 = Some pingErr ∧
         e = Go.errorString
               ("postgres configuration store ping error : " +:+ Go.Error pingErr))
  end ∧
  Connect pgxpool_Connect pool_Ping conn maxTimeout
  = Connect pgxpool_Connect pool_Ping conn 0%Z.
Proof.
  unfold Connect. split; [|done].
  destruct (pgxpool_Connect conn) as [err|pool]; [left; eauto|].
  destruct (pool_Ping pool 0) as [pingErr|] eqn:Hp; [right; eauto|done].
Qed.

(** [QueryRow] returns nil exactly when the scan succeeds, whatever the
    boolean scanned; a failure comes back as a new error with the
    component's prefix before the driver's message. *)
Theorem QueryRow_result (p : Pool) (query tbl : string) :
  (Helper.QueryRow pool_QueryRow_Scan p query tbl = None
   ↔ ∃ exists_, pool_QueryRow_Scan p query tbl = inr exists_) ∧
  (∀ e, Helper.QueryRow pool_QueryRow_Scan p query tbl = Some e
        ↔ ∃ err, pool_QueryRow_Scan p query tbl = inl err ∧
             e = Go.errorString
                   ("postgres configuration store query error : " +:+ Go.Error err)).
Proof.
  unfold Helper.QueryRow.
  destruct (pool_QueryRow_Scan p query tbl) as [err|b]; split.
  - split; [done|]. by intros [b Hb].
  - intros e. split.
    + intros [= <-]. eauto.
    + by intros (err' & [= <-] & ->).
  - split; eauto.
  - intros e. split; [done|]. by intros (err' & Herr & _).
Qed.

(** When [Init] returns nil, the store was not initialised before, it now
    holds the pool the driver built for the parsed connection string, that
    pool answered both pings and the table query, the metadata of the
    store are those of accepted options, only the start message was
    logged, and the registry is untouched. *)
Theorem Init_success (p p' : ConfigurationStore) (md : Metadata) (log : list LogEntry) :
  Init time_ParseDuration pgxpool_Connect pool_Ping pool_QueryRow_Scan p md
  = (p', log, None) ->
  client p = None ∧
  accepted_options time_ParseDuration md (store_metadata p') ∧
  (∃ c, client p' = Some c ∧
     pgxpool_Connect (connectionString (store_metadata p')) = inr c ∧
     pool_Ping c 0 = None ∧ pool_Ping c 1 = None ∧
     ∃ exists_, pool_QueryRow_Scan c QueryTableExists (configTable (store_metadata p'))
                = inr exists_) ∧
  subscribeStopChanMap p' = subscribeStopChanMap p ∧
  log = [LogDebug InfoStartInit].
Proof.
  unfold Init, Connect.
  destruct (client p) as [c0|] eqn:Hcl; [done|].
  destruct (parseMetadata time_ParseDuration md) as [m [err|]] eqn:Hparse; [done|].
  apply parseMetadata_nil_error_accepted in Hparse.
  destruct (pgxpool_Connect (connectionString m)) as [err|c] eqn:Hconn; [done|].
  destruct (pool_Ping c 0) eqn:Hp0; [done|].
  destruct (pool_Ping c 1) eqn:Hp1; [done|].
  cbn [store_metadata client subscribeStopChanMap].
  destruct (pool_QueryRow_Scan c QueryTableExists (configTable m)) as [err|b] eqn:Hq;
    [done|].
  intros [= <- <-]. cbn. repeat split; try done.
  exists c. repeat split; try done. by exists b.
Qed.

(** A failure of [Init] after [Connect] has succeeded (its own ping, or the
    table query) leaves the pool in the store: the error is returned, and
    every later [Init] of that store, with any options and any answers of
    the database, fails as already initialised and changes nothing. *)
Theorem Init_late_failure_is_final (p : ConfigurationStore) (md : Metadata)
    (m : metadata) (c : Pool) (e : Go.error) :
  client p = None ->
  parseMetadata time_ParseDuration md = (m, None) ->
  pgxpool_Connect (connectionString m) = inr c ->
  pool_Ping c 0 = None ->
  (pool_Ping c 1 = Some e ∨
   (pool_Ping c 1 = None ∧
    pool_QueryRow_Scan c QueryTableExists (configTable m) = inl e)) ->
  Init time_ParseDuration pgxpool_Connect pool_Ping pool_QueryRow_Scan p md
  = (mkStore m (Some c) (subscribeStopChanMap p), [LogDebug InfoStartInit], Some e) ∧
  ∀ pd' connect' ping' scan' md',
    Init pd' connect' ping' scan' (mkStore m (Some c) (subscribeStopChanMap p)) md'
    = (mkStore m (Some c) (subscribeStopChanMap p), [LogDebug InfoStartInit],
       Some (Go.errorString ErrorAlreadyInitialized)).
Proof.
  intros Hcl Hparse Hconn Hp0 Hlate. split; [|done].
  unfold Init, Connect. rewrite Hcl, Hparse, Hconn, Hp0.
  cbn [store_metadata client subscribeStopChanMap].
  destruct Hlate as [-> | [-> ->]]; done.
Qed.

(** A failure of [Init] before that (options rejected, or [Connect]
    failing) leaves the store without a pool, so that [Init] can be tried
    again; rejected options are logged and leave the store as it was. *)
Theorem Init_early_failure_is_retryable (p : ConfigurationStore) (md : Metadata) :
  client p = None ->
  (∀ m err, parseMetadata time_ParseDuration md = (m, Some err) ->
     Init time_ParseDuration pgxpool_Connect pool_Ping pool_QueryRow_Scan p md
     = (p, [LogDebug InfoStartInit; LogError err], Some err)) ∧
  (∀ m err, parseMetadata time_ParseDuration md = (m, None) ->
     Connect pgxpool_Connect pool_Ping (connectionString m) (maxIdleTime m) = inl err ->
     Init time_ParseDuration pgxpool_Connect pool_Ping pool_QueryRow_Scan p md
     = (mkStore m None (subscribeStopChanMap p), [LogDebug InfoStartInit], Some err)).
Proof.
  intros Hcl. unfold Init. rewrite Hcl. split.
  - by intros m err ->.
  - intros m err -> Hc. cbn [store_metadata client subscribeStopChanMap].
    by rewrite Hc.
Qed.

End InitCoverage.

Lemma Init_success_witness :
  Store.client Store.NewPostgresConfigurationStore = None ∧
  Facts.accepted_options Parser.example_ParseDuration MoreSamples.options_cfg
    (Store.store_metadata MoreSamples.store_cfg) ∧
  (∃ c, Store.client MoreSamples.store_cfg = Some c ∧
     MoreSamples.connect_ok
       (Parser.connectionString (Store.store_metadata MoreSamples.store_cfg)) = inr c ∧
     MoreSamples.ping_ok c 0 = None ∧ MoreSamples.ping_ok c 1 = None ∧
     ∃ exists_,
       MoreSamples.scan_false c QueryTableExists
         (Parser.configTable (Store.store_metadata MoreSamples.store_cfg)) = inr exists_) ∧
  Store.subscribeStopChanMap MoreSamples.store_cfg
  = Store.subscribeStopChanMap Store.NewPostgresConfigurationStore ∧
  [Store.LogDebug InfoStartInit] = [Store.LogDebug InfoStartInit].
Proof.
  apply (Init_success Parser.example_ParseDuration MoreSamples.connect_ok
           MoreSamples.ping_ok MoreSamples.scan_false
           Store.NewPostgresConfigurationStore MoreSamples.store_cfg
           MoreSamples.options_cfg [Store.LogDebug InfoStartInit]).
  vm_compute. reflexivity.
Defined.

Lemma Init_late_failure_is_final_witness :
  Store.Init Parser.example_ParseDuration MoreSamples.connect_ok MoreSamples.ping_once
    MoreSamples.scan_false Store.NewPostgresConfigurationStore MoreSamples.options_cfg
  = (Store.mkStore MoreSamples.metadata_cfg (Some 7)
       (Store.subscribeStopChanMap Store.NewPostgresConfigurationStore),
     [Store.LogDebug InfoStartInit], Some (Go.external 1)) ∧
  ∀ pd' connect' ping' scan' md',
    Store.Init pd' connect' ping' scan'
      (Store.mkStore MoreSamples.metadata_cfg (Some 7)
         (Store.subscribeStopChanMap Store.NewPostgresConfigurationStore)) md'
    = (Store.mkStore MoreSamples.metadata_cfg (Some 7)
         (Store.subscribeStopChanMap Store.NewPostgresConfigurationStore),
       [Store.LogDebug InfoStartInit],
       Some (Go.errorString ErrorAlreadyInitialized)).
Proof.
  apply (Init_late_failure_is_final Parser.example_ParseDuration MoreSamples.connect_ok
           MoreSamples.ping_once MoreSamples.scan_false
           Store.NewPostgresConfigurationStore MoreSamples.options_cfg
           MoreSamples.metadata_cfg 7 (Go.external 1)).
  - reflexivity.
  - vm_compute. reflexivity.
  - reflexivity.
  - reflexivity.
  - left. reflexivity.
Defined.

Lemma Init_early_failure_is_retryable_witness :
  Store.Init Parser.example_ParseDuration MoreSamples.connect_refused MoreSamples.ping_ok
    MoreSamples.scan_false Store.NewPostgresConfigurationStore MoreSamples.options_cfg
  = (Store.mkStore MoreSamples.metadata_cfg None
       (Store.subscribeStopChanMap Store.NewPostgresConfigurationStore),
     [Store.LogDebug InfoStartInit],
     Some (Go.errorString
             "postgres configuration store connection error : external error")).
Proof.
  refine (proj2 (Init_early_failure_is_retryable Parser.example_ParseDuration
                   MoreSamples.connect_refused MoreSamples.ping_ok MoreSamples.scan_false
                   Store.NewPostgresConfigurationStore MoreSamples.options_cfg _)
            MoreSamples.metadata_cfg _ _ _).
  - reflexivity.
  - vm_compute. reflexivity.
  - vm_compute. reflexivity.
Defined.

(** ** [Get]: the outcomes *)

Section GetCoverage.
Import configuration Parser Store.

Variable pool_Query : Pool -> string -> Go.error + list Row.
Variable rows_Scan : Row -> option Go.error.
Variable json_Unmarshal_strings : string -> Go.error + gmap string string.

(** On an initialised store [Get] sends the query of [buildQuery] and its
    outcome is decided by the answer and, when there are rows, by the first
    row alone: the driver's error is returned as it is, [ErrNoRows]
    excepted; a scan or decoding failure on the first row is returned; a
    first row that scans and decodes makes the call panic. The rows after
    the first are never read. *)
Theorem Get_outcome (order : list (string * string)) (p : ConfigurationStore)
    (req : GetRequest) (c : Pool) :
  client p = Some c ->
  QueryBuilder.range_order (ReqMetadata req) order ->
  Get_in pool_Query rows_Scan json_Unmarshal_strings order p req =
    match pool_Query c
            (Rendering.select_part (Keys req) (configTable (store_metadata p))
               +:+ Rendering.filter_part (map QueryBuilder.clause order))
    with
    | inl err =>
        match err with
        | Go.sql_ErrNoRows => Returned (mkGetResponse Go.nilMap)
        | _ => Failed err
        end
    | inr [] => Returned (mkGetResponse Go.nilMap)
    | inr (r :: _) =>
        match rows_Scan r with
        | Some err => Failed err
        | None =>
            match json_Unmarshal_strings (col_metadata r) with
            | inl err => Failed err
            | inr _ => Panicked "assignment to entry in nil map"
            end
        end
    end.
Proof.
  intros Hc Hord. unfold Get_in.
  rewrite buildQuery_in_shape by done. rewrite Hc.
  destruct (pool_Query c _) as [err|[|r rest]]; [by destruct err|done|].
  cbn [Get_rows].
  destruct (rows_Scan r); [done|].
  by destruct (json_Unmarshal_strings (col_metadata r)).
Qed.

(** Whatever the database answers, a response returned by [Get] holds no
    item. *)
Theorem Get_returns_no_item (order : list (string * string)) (p : ConfigurationStore)
    (req : GetRequest) (response : GetResponse) :
  Get_in pool_Query rows_Scan json_Unmarshal_strings order p req = Returned response ->
  Items response = Go.nilMap ∧ ∀ k, Go.map_index (Items response) k = None.
Proof.
  unfold Get_in. rewrite buildQuery_in_nil_error.
  destruct (client p) as [c|]; [|done].
  destruct (pool_Query c _) as [err|[|r rest]].
  - destruct (Go.error_eqb err Go.sql_ErrNoRows); [|done]. by intros [= <-].
  - by intros [= <-].
  - pose proof (Get_rows_first_row rows_Scan json_Unmarshal_strings r rest) as H.
    intros Heq. by rewrite Heq in H.
Qed.

End GetCoverage.

Lemma Get_outcome_witness :
  Store.Get_in MoreSamples.query_two_rows MoreSamples.scan_ok MoreSamples.unmarshal_owner
    [] MoreSamples.store_cfg (configuration.mkGetRequest ["k1"] ∅)
  = Store.Panicked "assignment to entry in nil map".
Proof.
  exact (Get_outcome MoreSamples.query_two_rows MoreSamples.scan_ok
           MoreSamples.unmarshal_owner [] MoreSamples.store_cfg
           (configuration.mkGetRequest ["k1"] ∅) 7 eq_refl
           (range_order_exists ∅)).
Defined.

Lemma Get_returns_no_item_witness :
  configuration.Items (configuration.mkGetResponse Go.nilMap) = Go.nilMap ∧
  ∀ k, Go.map_index (configuration.Items (configuration.mkGetResponse Go.nilMap)) k = None.
Proof.
  apply (Get_returns_no_item (fun _ _ => inr []) MoreSamples.scan_ok
           MoreSamples.unmarshal_owner [] MoreSamples.store_cfg
           (configuration.mkGetRequest ["k1"] ∅)).
  reflexivity.
Defined.

(** ** The registry: what [Subscribe] and [Unsubscribe] keep and change *)

Section RegistryCoverage.
Import configuration Parser Store Registry Facts.

Lemma reachable_stop_channels_open (m : metadata) (st : ConfigurationStore * Runtime) :
  reachable m st -> stop_channels_open st.
Proof.
  induction 1 as [c|st call st' Hreach IH Hstep].
  - split; intros *; cbn; by rewrite lookup_empty.
  - pose proof (registry_of_ids_channel _ _ (reachable_registry_of_ids _ _ Hreach)) as Hnone.
    destruct IH as [Hopen Hinj]. destruct st as [p rt]. cbn [fst snd] in *.
    destruct call as [u|id]; cbn [step fst snd] in Hstep.
    + unfold Subscribe in Hstep. rewrite Hnone in Hstep. cbn in Hstep.
      injection Hstep as <-. split; cbn [fst snd subscribeStopChanMap chans].
      * intros k c. rewrite lookup_insert. case_decide.
        -- intros [= <-]. by apply list_lookup_middle.
        -- intros Hk. apply lookup_app_l_Some. by eapply Hopen.
      * intros k1 k2 c. rewrite !lookup_insert. repeat case_decide; subst.
        -- done.
        -- intros [= <-] Hk2. apply Hopen, lookup_lt_Some in Hk2. lia.
        -- intros Hk1 [= <-]. apply Hopen, lookup_lt_Some in Hk1. lia.
        -- apply Hinj.
    + unfold Unsubscribe in Hstep.
      destruct (subscribeStopChanMap p !! id) as [old|] eqn:Hl.
      * unfold close_chan in Hstep. rewrite (Hopen _ _ Hl) in Hstep.
        injection Hstep as <-. split; cbn [fst snd subscribeStopChanMap chans].
        -- intros k c. rewrite lookup_delete. case_decide as Hk; [done|].
           intros Hkc. rewrite list_lookup_insert_ne; [by eapply Hopen|].
           intros ->. apply Hk. by eapply Hinj.
        -- intros k1 k2 c. rewrite !lookup_delete. repeat case_decide; try done.
           apply Hinj.
      * injection Hstep as <-. by split.
Qed.

(** No sequence of [Subscribe] and [Unsubscribe] calls panics: in every
    state the store reaches the next call returns. In particular no stop
    channel is closed twice. *)
Theorem registry_calls_return (m : metadata) (st : ConfigurationStore * Runtime)
    (c : call) :
  reachable m st -> ∃ st', step st c = Returned st'.
Proof.
  intros Hreach.
  pose proof (registry_of_ids_channel _ _ (reachable_registry_of_ids _ _ Hreach)) as Hnone.
  destruct (reachable_stop_channels_open _ _ Hreach) as [Hopen _].
  destruct st as [p rt]. cbn [fst snd] in *. destruct c as [u|id]; cbn [step fst snd].
  - unfold Subscribe. rewrite Hnone. cbn. eauto.
  - unfold Unsubscribe. destruct (subscribeStopChanMap p !! id) as [old|] eqn:Hl; [|eauto].
    unfold close_chan. rewrite (Hopen _ _ Hl). eauto.
Qed.


(** [Unsubscribe] of a registered identifier removes that entry, closes
    its stop channel and nothing else: the other entries stay, their
    channels stay open, and the goroutines started are the same. *)
Theorem Unsubscribe_registered (m : metadata) (p : ConfigurationStore) (rt : Runtime)
    (id : string) (c : chan) :
  reachable m (p, rt) ->
  subscribeStopChanMap p !! id = Some c ->
  Unsubscribe p rt id
  = Returned (mkStore (store_metadata p) (client p) (delete id (subscribeStopChanMap p)),
              mkRuntime (<[c := true]> (chans rt)) (goroutines rt)) ∧
  is_closed (mkRuntime (<[c := true]> (chans rt)) (goroutines rt)) c = true ∧
  ∀ c', c' ≠ c ->
    is_closed (mkRuntime (<[c := true]> (chans rt)) (goroutines rt)) c' = is_closed rt c'.
Proof.
  intros Hreach Hl. destruct (reachable_stop_channels_open _ _ Hreach) as [Hopen _].
  pose proof (Hopen _ _ Hl) as Hc. cbn [fst snd] in Hc.
  split; [|split].
  - unfold Unsubscribe, close_chan. by rewrite Hl, Hc.
  - unfold is_closed. cbn [chans].
    rewrite list_lookup_insert_eq; [done|]. by eapply lookup_lt_Some.
  - intros c' Hne. unfold is_closed. cbn [chans].
    by rewrite list_lookup_insert_ne.
Qed.

(** [Unsubscribe] is idempotent: after a call that returned, a second
    call with the same identifier returns and changes nothing. An unknown
    identifier is such a second call. *)
Theorem Unsubscribe_twice (p p' : ConfigurationStore) (rt rt' : Runtime) (id : string) :
  Unsubscribe p rt id = Returned (p', rt') ->
  Unsubscribe p' rt' id = Returned (p', rt').
Proof.
  unfold Unsubscribe.
  destruct (subscribeStopChanMap p !! id) as [old|] eqn:Hl.
  - destruct (close_chan old rt) as [rt1| |]; try done.
    intros [= <- <-]. cbn [subscribeStopChanMap]. by rewrite lookup_delete_eq.
  - intros [= <- <-]. by rewrite Hl.
Qed.

(** [Subscribe] followed by [Unsubscribe] of the identifier it returned:
    both calls return, the registry is back to what it was (less an older
    entry under the same identifier, if any), and the stop channel made by
    [Subscribe] is closed, every older channel being as before. The
    goroutine started by [Subscribe] remains started. *)
Theorem Subscribe_then_Unsubscribe (m : metadata) (p : ConfigurationStore) (rt : Runtime)
    (u : uuid.UUID) :
  reachable m (p, rt) ->
  ∃ p1 rt1,
    Subscribe p rt u = Returned (uuid.String_ u, p1, rt1) ∧
    Unsubscribe p1 rt1 (uuid.String_ u)
    = Returned (mkStore (store_metadata p) (client p)
                        (delete (uuid.String_ u) (subscribeStopChanMap p)),
                mkRuntime (chans rt ++ [true])
                          (goroutines rt ++
                             [mkListener ("listen " +:+ configTable (store_metadata p))
                                         (uuid.String_ u) (length (chans rt))])).
Proof.
  intros Hreach.
  pose proof (registry_of_ids_channel _ _ (reachable_registry_of_ids _ _ Hreach)) as Hnone.
  cbn [fst] in Hnone.
  eexists _, _. split.
  - unfold Subscribe. rewrite Hnone. cbn. reflexivity.
  - unfold Unsubscribe, close_chan. cbn [subscribeStopChanMap chans goroutines
      store_metadata client].
    rewrite lookup_insert_eq.
    rewrite list_lookup_middle by done.
    rewrite delete_insert_eq.
    do 3 f_equal.
    rewrite insert_app_r_alt by done. by rewrite Nat.sub_diag.
Qed.


End RegistryCoverage.

Lemma reachable_state_1 :
  Registry.reachable MoreSamples.metadata_cfg (MoreSamples.store_1, MoreSamples.runtime_1).
Proof.
  apply (Registry.reach_step MoreSamples.metadata_cfg
           (MoreSamples.store_cfg, Registry.Runtime_init)
           (Registry.CallSubscribe MoreSamples.uuid_1)).
  - apply (Registry.reach_init MoreSamples.metadata_cfg (Some 7)).
  - vm_compute. reflexivity.
Qed.

Lemma registry_calls_return_witness :
  ∃ st', Registry.step (MoreSamples.store_1, MoreSamples.runtime_1)
           (Registry.CallUnsubscribe MoreSamples.id_1) = Store.Returned st'.
Proof.
  exact (registry_calls_return MoreSamples.metadata_cfg
           (MoreSamples.store_1, MoreSamples.runtime_1)
           (Registry.CallUnsubscribe MoreSamples.id_1) reachable_state_1).
Defined.


Lemma Unsubscribe_registered_witness :
  Registry.Unsubscribe MoreSamples.store_1 MoreSamples.runtime_1 MoreSamples.id_1
  = Store.Returned
      (Store.mkStore (Store.store_metadata MoreSamples.store_1)
         (Store.client MoreSamples.store_1)
         (delete MoreSamples.id_1 (Store.subscribeStopChanMap MoreSamples.store_1)),
       Registry.mkRuntime (<[0 := true]> (Registry.chans MoreSamples.runtime_1))
         (Registry.goroutines MoreSamples.runtime_1)) ∧
  Registry.is_closed
    (Registry.mkRuntime (<[0 := true]> (Registry.chans MoreSamples.runtime_1))
       (Registry.goroutines MoreSamples.runtime_1)) 0 = true ∧
  ∀ c', c' ≠ 0 ->
    Registry.is_closed
      (Registry.mkRuntime (<[0 := true]> (Registry.chans MoreSamples.runtime_1))
         (Registry.goroutines MoreSamples.runtime_1)) c'
    = Registry.is_closed MoreSamples.runtime_1 c'.
Proof.
  apply (Unsubscribe_registered MoreSamples.metadata_cfg MoreSamples.store_1
           MoreSamples.runtime_1 MoreSamples.id_1 0 reachable_state_1).
  vm_compute. reflexivity.
Defined.

Lemma Unsubscribe_twice_witness :
  Registry.Unsubscribe
    (Store.mkStore MoreSamples.metadata_cfg (Some 7) ∅)
    (Registry.mkRuntime [true] [Registry.mkListener "listen cfg" MoreSamples.id_1 0])
    MoreSamples.id_1
  = Store.Returned
      (Store.mkStore MoreSamples.metadata_cfg (Some 7) ∅,
       Registry.mkRuntime [true] [Registry.mkListener "listen cfg" MoreSamples.id_1 0]).
Proof.
  apply (Unsubscribe_twice MoreSamples.store_1 _ MoreSamples.runtime_1 _ MoreSamples.id_1).
  vm_compute. reflexivity.
Defined.

Lemma Subscribe_then_Unsubscribe_witness :
  ∃ p1 rt1,
    Registry.Subscribe MoreSamples.store_cfg Registry.Runtime_init MoreSamples.uuid_1
    = Store.Returned (uuid.String_ MoreSamples.uuid_1, p1, rt1) ∧
    Registry.Unsubscribe p1 rt1 (uuid.String_ MoreSamples.uuid_1)
    = Store.Returned
        (Store.mkStore (Store.store_metadata MoreSamples.store_cfg)
           (Store.client MoreSamples.store_cfg)
           (delete (uuid.String_ MoreSamples.uuid_1)
              (Store.subscribeStopChanMap MoreSamples.store_cfg)),
         Registry.mkRuntime (Registry.chans Registry.Runtime_init ++ [true])
           (Registry.goroutines Registry.Runtime_init ++
              [Registry.mkListener
                 ("listen " +:+ Parser.configTable (Store.store_metadata MoreSamples.store_cfg))
                 (uuid.String_ MoreSamples.uuid_1)
                 (length (Registry.chans Registry.Runtime_init))])).
Proof.
  exact (Subscribe_then_Unsubscribe MoreSamples.metadata_cfg MoreSamples.store_cfg
           Registry.Runtime_init MoreSamples.uuid_1
           (Registry.reach_init MoreSamples.metadata_cfg (Some 7))).
Defined.


(** ** The decoder: when the handler is called, and with what *)

Section DecoderCoverage.
Import configuration Store Decoder Facts.

Variable strings_ToLower : string -> string.
Variable json_Unmarshal : string -> Go.error + gmap string JValue.
Variable handler : UpdateEvent -> option Go.error.

Lemma metadata_loop_returns (a : list (string * JValue)) :
  existsb (fun e => match snd e with JString _ => false | _ => true end) a = false ->
  ∀ m0, ∃ m', metadata_loop a m0 = inr m'.
Proof.
  induction a as [|[k v] a IH]; intros Hex m0; [by eexists|].
  cbn in Hex. apply orb_false_elim in Hex as [Hv Ha].
  destruct v; try done. cbn. by apply IH.
Qed.

Lemma field_returns (k : string) (v : JValue) (st : locals) :
  field_panics strings_ToLower (k, v) = false ->
  ∃ st', field strings_ToLower k v st = inr st'.
Proof.
  unfold field_panics, field. cbn [fst snd].
  destruct (String.eqb (strings_ToLower k) "key"); cbn [orb].
  { destruct v; intros; try done; cbn; eauto. }
  destruct (String.eqb (strings_ToLower k) "value"); cbn [orb].
  { destruct v; intros; try done; cbn; eauto. }
  destruct (String.eqb (strings_ToLower k) "version"); cbn [orb].
  { destruct v; intros; try done; cbn; eauto. }
  destruct (String.eqb (strings_ToLower k) "metadata"); [|eauto].
  destruct v; intros Hp; try done. cbn [assert_map].
  destruct (metadata_loop_returns _ Hp (m st)) as [m' ->]. eauto.
Qed.

Lemma row_loop_returns (row : list (string * JValue)) :
  existsb (field_panics strings_ToLower) row = false ->
  ∀ st, ∃ st', row_loop strings_ToLower row st = inr st'.
Proof.
  induction row as [|[k v] row IH]; intros Hex st; [by eexists|].
  cbn [existsb] in Hex. apply orb_false_elim in Hex as [Hk Hrow].
  cbn [row_loop]. destruct (field_returns k v st Hk) as [st' ->]. by apply IH.
Qed.

(** The handler calls of one notification whose payload decodes. *)
Lemma handleSubscribedChange_calls (msg : Notification) (id : string)
    (payload : gmap string JValue) :
  json_Unmarshal (Payload msg) = inr payload ->
  handler_calls (fst (handleSubscribedChange strings_ToLower json_Unmarshal handler msg id))
  = match (match payload !! "data" with
           | Some (JMap row) => row_loop strings_ToLower row locals_init
           | _ => inr locals_init
           end) with
    | inl _ => []
    | inr st => [mkUpdateEvent {[ key st := mkItem (value st) (version st) (m st) ]} id]
    end.
Proof.
  intros Hdec. unfold handleSubscribedChange, handle_body. rewrite Hdec.
  destruct (match payload !! "data" with
            | Some (JMap row) => row_loop strings_ToLower row locals_init
            | _ => inr locals_init
            end) as [pv|st]; [done|].
  by destruct (handler _).
Qed.

Lemma handleSubscribedChange_calls_undecoded (msg : Notification) (id : string)
    (err : Go.error) :
  json_Unmarshal (Payload msg) = inl err ->
  handler_calls (fst (handleSubscribedChange strings_ToLower json_Unmarshal handler msg id))
  = [].
Proof.
  intros Hdec. unfold handleSubscribedChange, handle_body. by rewrite Hdec.
Qed.

(** A notification reaches the handler unless its payload does not decode
    or a field of its ["data"] object has the wrong dynamic type: these
    are the only two ways for a notification to be dropped. *)
Theorem handler_skipped_iff (msg : Notification) (id : string) :
  handler_calls (fst (handleSubscribedChange strings_ToLower json_Unmarshal handler msg id))
  = []
  ↔ (∃ err, json_Unmarshal (Payload msg) = inl err) ∨
    (∃ payload row,
       json_Unmarshal (Payload msg) = inr payload ∧
       payload !! "data" = Some (JMap row) ∧
       existsb (field_panics strings_ToLower) row = true).
Proof.
  destruct (json_Unmarshal (Payload msg)) as [err|payload] eqn:Hdec.
  { rewrite (handleSubscribedChange_calls_undecoded msg id err Hdec). split; eauto. }
  rewrite (handleSubscribedChange_calls msg id payload Hdec).
  destruct (payload !! "data") as [[| | | | |row]|] eqn:Hdata;
    try (split; [done|intros [[err [=]]|(pl & row' & [= <-] & Hd & _)]; congruence]).
  destruct (existsb (field_panics strings_ToLower) row) eqn:Hbad.
  - destruct (row_loop_panics strings_ToLower row Hbad locals_init) as [pv ->].
    split; [|done]. intros _. right. by exists payload, row.
  - destruct (row_loop_returns row Hbad locals_init) as [st ->].
    split; [done|].
    intros [[err [=]]|(pl & row' & [= <-] & Hd & Hb)]. congruence.
Qed.

(** A notification gives rise to at most one call of the handler, and the
    event passed carries the identifier of the subscription and exactly
    one item. *)
Theorem handler_called_at_most_once (msg : Notification) (id : string) :
  length (handler_calls
            (fst (handleSubscribedChange strings_ToLower json_Unmarshal handler msg id)))
  ≤ 1 ∧
  ∀ ev, ev ∈ handler_calls
               (fst (handleSubscribedChange strings_ToLower json_Unmarshal handler msg id)) ->
        ID ev = id ∧ size (EventItems ev) = 1.
Proof.
  destruct (json_Unmarshal (Payload msg)) as [err|payload] eqn:Hdec.
  { rewrite (handleSubscribedChange_calls_undecoded msg id err Hdec).
    split; [cbn; lia|]. intros ev Hev. by apply elem_of_nil in Hev. }
  rewrite (handleSubscribedChange_calls msg id payload Hdec).
  destruct (match payload !! "data" with
            | Some (JMap row) => row_loop strings_ToLower row locals_init
            | _ => inr locals_init
            end) as [pv|st].
  { split; [cbn; lia|]. intros ev Hev. by apply elem_of_nil in Hev. }
  split; [cbn; lia|].
  intros ev Hev. apply list_elem_of_singleton in Hev. subst ev. cbn.
  by rewrite map_size_singleton.
Qed.

(** The listener loop handles every notification delivered, in order,
    whatever happened to the earlier ones (dropped, rejected by the
    handler, or recovered from a panic); then the failed wait is logged
    unless it is a time-out or a cancellation, and the loop returns. *)
Theorem wait_loop_handles_all (pending : list Notification) (waitErr : Go.error)
    (quiet : bool) (id : string) :
  wait_loop strings_ToLower json_Unmarshal handler pending waitErr quiet id
  = (concat (map (fun msg =>
                    fst (handleSubscribedChange strings_ToLower json_Unmarshal handler msg id))
                 pending)
       ++ (if quiet then []
           else [Logged (LogErrorf "Error waiting for notification:" (Go.Error waitErr))]),
     TaskReturned).
Proof.
  induction pending as [|msg rest IH]; cbn [wait_loop map concat].
  - by destruct quiet.
  - pose proof (handleSubscribedChange_never_panics strings_ToLower json_Unmarshal
                  handler msg id) as Hnp.
    destruct (handleSubscribedChange _ _ _ msg id) as [effects esc].
    cbn in Hnp. subst esc. rewrite IH. cbn [fst]. by rewrite app_assoc.
Qed.

Lemma same_decoding_refl (x : PanicValue + locals) : same_decoding x x.
Proof. by destruct x. Qed.

Lemma same_decoding_trans (x y z : PanicValue + locals) :
  same_decoding x y -> same_decoding y z -> same_decoding x z.
Proof. destruct x, y, z; cbn; intros; try done; congruence. Qed.

(** Whether a field panics does not depend on the fields read before. *)
Lemma field_panics_complete (k : string) (v : JValue) (st : locals) (pv : PanicValue) :
  field strings_ToLower k v st = inl pv -> field_panics strings_ToLower (k, v) = true.
Proof.
  intros Hf. destruct (field_panics strings_ToLower (k, v)) eqn:Hp; [done|].
  destruct (field_returns k v st Hp) as [st' Hst']. congruence.
Qed.

(** A field changes only the local of its own tag. *)
Lemma field_keeps (k : string) (v : JValue) (st st1 : locals) :
  field strings_ToLower k v st = inr st1 ->
  (strings_ToLower k ≠ "key" -> key st1 = key st) ∧
  (strings_ToLower k ≠ "value" -> value st1 = value st) ∧
  (strings_ToLower k ≠ "version" -> version st1 = version st) ∧
  (strings_ToLower k ≠ "metadata" -> m st1 = m st).
Proof.
  unfold field.
  destruct (String.eqb_spec (strings_ToLower k) "key") as [Hk|Hk].
  { rewrite Hk. destruct v; cbn; try done. by intros [= <-]. }
  destruct (String.eqb_spec (strings_ToLower k) "value") as [Hv|Hv].
  { rewrite Hv. destruct v; cbn; try done. by intros [= <-]. }
  destruct (String.eqb_spec (strings_ToLower k) "version") as [Hn|Hn].
  { rewrite Hn. destruct v; cbn; try done. by intros [= <-]. }
  destruct (String.eqb_spec (strings_ToLower k) "metadata") as [Hm|Hm].
  { rewrite Hm. destruct v; cbn; try done.
    destruct (metadata_loop entries (m st)); [done|]. by intros [= <-]. }
  by intros [= <-].
Qed.

(** What a field stores in the local of its tag. *)
Lemma field_sets (k : string) (v : JValue) (st st1 : locals) :
  field strings_ToLower k v st = inr st1 ->
  (strings_ToLower k = "key" -> v = JString (key st1)) ∧
  (strings_ToLower k = "value" -> v = JString (value st1)) ∧
  (strings_ToLower k = "version" -> v = JString (version st1)) ∧
  (strings_ToLower k = "metadata" ->
     ∃ a, v = JMap a ∧ metadata_loop a (m st) = inr (m st1)).
Proof.
  unfold field.
  destruct (String.eqb_spec (strings_ToLower k) "key") as [Hk|Hk].
  { rewrite Hk. destruct v; cbn; try done. by intros [= <-]. }
  destruct (String.eqb_spec (strings_ToLower k) "value") as [Hv|Hv].
  { rewrite Hv. destruct v; cbn; try done. by intros [= <-]. }
  destruct (String.eqb_spec (strings_ToLower k) "version") as [Hn|Hn].
  { rewrite Hn. destruct v; cbn; try done. by intros [= <-]. }
  destruct (String.eqb_spec (strings_ToLower k) "metadata") as [Hm|Hm].
  { rewrite Hm. destruct v; cbn; try done.
    destruct (metadata_loop entries (m st)) as [pv|m'] eqn:Hl; [done|].
    intros [= <-]. repeat split; try done. intros _. by exists entries. }
  by intros [= <-].
Qed.

Lemma row_loop_keeps (row : list (string * JValue)) :
  ∀ st st',
    row_loop strings_ToLower row st = inr st' ->
    ((∀ kv, kv ∈ row -> strings_ToLower (fst kv) ≠ "key") -> key st' = key st) ∧
    ((∀ kv, kv ∈ row -> strings_ToLower (fst kv) ≠ "value") -> value st' = value st) ∧
    ((∀ kv, kv ∈ row -> strings_ToLower (fst kv) ≠ "version") -> version st' = version st) ∧
    ((∀ kv, kv ∈ row -> strings_ToLower (fst kv) ≠ "metadata") -> m st' = m st).
Proof.
  induction row as [|[k v] row IH]; intros st st' Hrun.
  - cbn in Hrun. by injection Hrun as <-.
  - cbn [row_loop] in Hrun.
    destruct (field strings_ToLower k v st) as [pv|st1] eqn:Hf; [done|].
    destruct (field_keeps k v st st1 Hf) as (Kk & Kv & Kn & Km).
    destruct (IH st1 st' Hrun) as (Rk & Rv & Rn & Rm).
    repeat split; intros Hno.
    + rewrite Rk, Kk; [done|apply (Hno (k, v)); by left|].
      intros kv Hin. apply Hno. by right.
    + rewrite Rv, Kv; [done|apply (Hno (k, v)); by left|].
      intros kv Hin. apply Hno. by right.
    + rewrite Rn, Kn; [done|apply (Hno (k, v)); by left|].
      intros kv Hin. apply Hno. by right.
    + rewrite Rm, Km; [done|apply (Hno (k, v)); by left|].
      intros kv Hin. apply Hno. by right.
Qed.

Ltac tag_cases t :=
  destruct (String.eqb_spec t "key");
  [| destruct (String.eqb_spec t "value");
     [| destruct (String.eqb_spec t "version");
        [| destruct (String.eqb_spec t "metadata") ]]].

(** Two fields with different tags can be read in either order. *)
Lemma field_swap (k1 k2 : string) (v1 v2 : JValue) (st st1 st12 : locals) :
  strings_ToLower k1 ≠ strings_ToLower k2 ->
  field strings_ToLower k1 v1 st = inr st1 ->
  field strings_ToLower k2 v2 st1 = inr st12 ->
  ∃ st2, field strings_ToLower k2 v2 st = inr st2 ∧
         field strings_ToLower k1 v1 st2 = inr st12.
Proof.
  intros Hne H1 H2. unfold field in *.
  tag_cases (strings_ToLower k1); tag_cases (strings_ToLower k2);
    try congruence;
    destruct v1, v2; simpl in *; try done;
    repeat (match goal with
            | H : match metadata_loop ?a ?m0 with _ => _ end = _ |- _ =>
                destruct (metadata_loop a m0) eqn:?; [done|]
            end; simpl in *);
    simplify_eq; simpl in *;
    repeat match goal with
           | H : metadata_loop _ _ = _ |- _ => rewrite H
           end;
    eexists; (split; [reflexivity|]); simpl;
    repeat match goal with
           | H : metadata_loop _ _ = _ |- _ => rewrite H
           end;
    reflexivity.
Qed.

(** When no two fields of the ["data"] object have the same name up to
    case, the decoding does not depend on the order in which the object is
    visited: two orders both panic, or both end with the same key, value,
    version and metadata. *)
Theorem row_loop_order_independent (row row' : list (string * JValue)) :
  row ≡ₚ row' ->
  NoDup (map (fun kv => strings_ToLower (fst kv)) row) ->
  ∀ st, same_decoding (row_loop strings_ToLower row st) (row_loop strings_ToLower row' st).
Proof.
  induction 1 as [|[k v] l l' Hperm IH|[k1 v1] [k2 v2] l|l l' l'' Hp1 IH1 Hp2 IH2];
    intros Hnd st.
  - done.
  - cbn [map fst] in Hnd. apply NoDup_cons in Hnd as [_ Hnd].
    cbn [row_loop]. destruct (field strings_ToLower k v st); [done|]. by apply IH.
  - cbn [map fst] in Hnd. apply NoDup_cons in Hnd as [Hne _].
    assert (strings_ToLower k2 ≠ strings_ToLower k1) as Hdiff.
    { intros Heq. apply Hne. rewrite Heq. by left. }
    cbn [row_loop].
    destruct (field strings_ToLower k1 v1 st) as [pv1|s1] eqn:F1.
    + apply field_panics_complete in F1.
      destruct (field strings_ToLower k2 v2 st) as [pv2|s2]; [done|].
      by destruct (field_panics_sound strings_ToLower k1 v1 s2 F1) as [pv ->].
    + destruct (field strings_ToLower k2 v2 s1) as [pv2|s12] eqn:F2.
      * apply field_panics_complete in F2.
        by destruct (field_panics_sound strings_ToLower k2 v2 st F2) as [pv ->].
      * destruct (field_swap k1 k2 v1 v2 st s1 s12) as (s2 & -> & ->); try done.
        apply same_decoding_refl.
  - eapply same_decoding_trans; [by apply IH1|]. apply IH2.
    by rewrite <- (Permutation_map (fun kv => strings_ToLower (fst kv)) Hp1).
Qed.

Lemma row_loop_reads_present (row : list (string * JValue)) :
  NoDup (map (fun kv => strings_ToLower (fst kv)) row) ->
  ∀ st st',
    row_loop strings_ToLower row st = inr st' ->
    ∀ k v, (k, v) ∈ row ->
      (strings_ToLower k = "key" -> v = JString (key st')) ∧
      (strings_ToLower k = "value" -> v = JString (value st')) ∧
      (strings_ToLower k = "version" -> v = JString (version st')) ∧
      (strings_ToLower k = "metadata" ->
         ∃ a, v = JMap a ∧ metadata_loop a (m st) = inr (m st')).
Proof.
  induction row as [|[k0 v0] row IH]; intros Hnd st st' Hrun k v Hin.
  { by apply elem_of_nil in Hin. }
  cbn [map fst] in Hnd. apply NoDup_cons in Hnd as [Hfresh Hnd].
  cbn [row_loop] in Hrun.
  destruct (field strings_ToLower k0 v0 st) as [pv|st1] eqn:Hf; [done|].
  apply elem_of_cons in Hin as [[= -> ->]|Hin].
  - assert (Hrest : ∀ tag, strings_ToLower k0 = tag ->
              ∀ kv, kv ∈ row -> strings_ToLower (fst kv) ≠ tag).
    { intros tag <- kv Hkv Heq. apply Hfresh. rewrite <- Heq.
      by apply (list_elem_of_fmap_2 (fun kv => strings_ToLower (fst kv))). }
    destruct (field_sets k0 v0 st st1 Hf) as (Sk & Sv & Sn & Sm).
    destruct (row_loop_keeps row st1 st' Hrun) as (Rk & Rv & Rn & Rm).
    repeat split.
    + intros Ht. rewrite (Rk (Hrest _ Ht)). by apply Sk.
    + intros Ht. rewrite (Rv (Hrest _ Ht)). by apply Sv.
    + intros Ht. rewrite (Rn (Hrest _ Ht)). by apply Sn.
    + intros Ht. rewrite (Rm (Hrest _ Ht)). by apply Sm.
  - destruct (IH Hnd st1 st' Hrun k v Hin) as (Ik & Iv & In & Im).
    repeat split; try done.
    intros Ht. destruct (Im Ht) as (a & -> & Hloop). exists a. split; [done|].
    destruct (field_keeps k0 v0 st st1 Hf) as (_ & _ & _ & Km).
    rewrite <- Km; [done|]. intros Heq. apply Hfresh. rewrite Heq, <- Ht.
    by apply (list_elem_of_fmap_2 (fun kv => strings_ToLower (fst kv)) row (k, JMap a)).
Qed.

(** The inner loop succeeds only on an object of strings, and then the
    metadata are the initial ones with every entry of the object added. *)
Lemma metadata_loop_adds (a : list (string * JValue)) :
  ∀ (m0 m' : gmap string string),
    metadata_loop a m0 = inr m' ->
    ∃ strs : list (string * string),
      a = map (fun ks => (fst ks, JString (snd ks))) strs ∧
      m' = list_to_map (reverse strs) ∪ m0.
Proof.
  induction a as [|[k v] a IH]; intros m0 m' Hrun.
  - cbn in Hrun. injection Hrun as <-. exists []. split; [done|].
    by rewrite reverse_nil, list_to_map_nil, (left_id_L ∅ (∪)).
  - cbn [metadata_loop] in Hrun. destruct v; try done. cbn [assert_string] in Hrun.
    apply IH in Hrun as (strs & -> & ->). exists ((k, s) :: strs). split; [done|].
    rewrite reverse_cons, list_to_map_app, <- (assoc_L (∪)). f_equal.
    rewrite insert_union_singleton_l. f_equal.
Qed.

(** When no two fields of the ["data"] object have the same name up to
    case and the decoding succeeds, the locals hold what the object says:
    the string under the name [key], [value] or [version] (in any case) if
    there is such a field, and the initial value if there is none; and
    under [metadata] an object of strings, whose entries are all in the
    metadata, with their strings, next to the initial metadata (the
    initial metadata alone if there is no such field). Should the list of
    entries name a key twice, which a Go map never does, the later entry
    prevails. *)
Theorem row_loop_reads_fields (row : list (string * JValue)) (st st' : locals) :
  NoDup (map (fun kv => strings_ToLower (fst kv)) row) ->
  row_loop strings_ToLower row st = inr st' ->
  (∀ k v, (k, v) ∈ row ->
     (strings_ToLower k = "key" -> v = JString (key st')) ∧
     (strings_ToLower k = "value" -> v = JString (value st')) ∧
     (strings_ToLower k = "version" -> v = JString (version st')) ∧
     (strings_ToLower k = "metadata" ->
        ∃ strs : list (string * string),
          v = JMap (map (fun ks => (fst ks, JString (snd ks))) strs) ∧
          m st' = list_to_map (reverse strs) ∪ m st ∧
          (NoDup (map fst strs) ->
           ∀ name text, (name, text) ∈ strs -> m st' !! name = Some text) ∧
          (∀ name, name ∉ map fst strs -> m st' !! name = m st !! name))) ∧
  ((∀ kv, kv ∈ row -> strings_ToLower (fst kv) ≠ "key") -> key st' = key st) ∧
  ((∀ kv, kv ∈ row -> strings_ToLower (fst kv) ≠ "value") -> value st' = value st) ∧
  ((∀ kv, kv ∈ row -> strings_ToLower (fst kv) ≠ "version") -> version st' = version st) ∧
  ((∀ kv, kv ∈ row -> strings_ToLower (fst kv) ≠ "metadata") -> m st' = m st).
Proof.
  intros Hnd Hrun. split; [|by apply row_loop_keeps].
  intros k v Hin.
  destruct (row_loop_reads_present row Hnd st st' Hrun k v Hin) as (Hk & Hv & Hn & Hm).
  repeat split; try done.
  intros Ht. destruct (Hm Ht) as (a & -> & Hloop).
  apply metadata_loop_adds in Hloop as (strs & -> & Hunion).
  exists strs. split; [done|]. split; [done|]. rewrite Hunion. split.
  - intros Hdistinct name text Hname.
    change (map fst strs) with (strs.*1) in Hdistinct.
    apply lookup_union_Some_l, elem_of_list_to_map_1.
    + by rewrite fmap_reverse, reverse_Permutation.
    + by apply elem_of_reverse.
  - intros name Hname. change (map fst strs) with (strs.*1) in Hname.
    apply lookup_union_r, not_elem_of_list_to_map_1.
    by rewrite fmap_reverse, elem_of_reverse.
Qed.

End DecoderCoverage.

Lemma row_loop_order_independent_witness :
  Facts.same_decoding
    (Decoder.row_loop Decoder.ascii_ToLower
       [("Key", Decoder.JString "k1"); ("VALUE", Decoder.JString "v1");
        ("note", Decoder.JBool true)] Decoder.locals_init)
    (Decoder.row_loop Decoder.ascii_ToLower
       [("VALUE", Decoder.JString "v1"); ("Key", Decoder.JString "k1");
        ("note", Decoder.JBool true)] Decoder.locals_init).
Proof.
  apply (row_loop_order_independent Decoder.ascii_ToLower
           [("Key", Decoder.JString "k1"); ("VALUE", Decoder.JString "v1");
            ("note", Decoder.JBool true)]
           [("VALUE", Decoder.JString "v1"); ("Key", Decoder.JString "k1");
            ("note", Decoder.JBool true)]).
  - apply perm_swap.
  - apply (bool_decide_unpack _). vm_compute. exact I.
Defined.

Lemma row_loop_reads_fields_witness :
  (∀ k v, (k, v) ∈ [("Key", Decoder.JString "k1");
                     ("Metadata", Decoder.JMap [("owner", Decoder.JString "x");
                                                ("tier", Decoder.JString "web")])] ->
     (Decoder.ascii_ToLower k = "key" ->
        v = Decoder.JString
              (Decoder.key (Decoder.mkLocals "k1" "" ""
                              {[ "owner" := "x"; "tier" := "web" ]}))) ∧
     (Decoder.ascii_ToLower k = "value" ->
        v = Decoder.JString
              (Decoder.value (Decoder.mkLocals "k1" "" ""
                                {[ "owner" := "x"; "tier" := "web" ]}))) ∧
     (Decoder.ascii_ToLower k = "version" ->
        v = Decoder.JString
              (Decoder.version (Decoder.mkLocals "k1" "" ""
                                  {[ "owner" := "x"; "tier" := "web" ]}))) ∧
     (Decoder.ascii_ToLower k = "metadata" ->
        ∃ strs : list (string * string),
          v = Decoder.JMap (map (fun ks => (fst ks, Decoder.JString (snd ks))) strs) ∧
          Decoder.m (Decoder.mkLocals "k1" "" "" {[ "owner" := "x"; "tier" := "web" ]})
          = list_to_map (reverse strs) ∪ Decoder.m Decoder.locals_init ∧
          (NoDup (map fst strs) ->
           ∀ name text, (name, text) ∈ strs ->
             Decoder.m (Decoder.mkLocals "k1" "" "" {[ "owner" := "x"; "tier" := "web" ]})
               !! name = Some text) ∧
          (∀ name, name ∉ map fst strs ->
             Decoder.m (Decoder.mkLocals "k1" "" "" {[ "owner" := "x"; "tier" := "web" ]})
               !! name = Decoder.m Decoder.locals_init !! name))) ∧
  ((∀ kv, kv ∈ [("Key", Decoder.JString "k1");
                 ("Metadata", Decoder.JMap [("owner", Decoder.JString "x");
                                            ("tier", Decoder.JString "web")])] ->
      Decoder.ascii_ToLower (fst kv) ≠ "key") ->
   Decoder.key (Decoder.mkLocals "k1" "" "" {[ "owner" := "x"; "tier" := "web" ]})
   = Decoder.key Decoder.locals_init) ∧
  ((∀ kv, kv ∈ [("Key", Decoder.JString "k1");
                 ("Metadata", Decoder.JMap [("owner", Decoder.JString "x");
                                            ("tier", Decoder.JString "web")])] ->
      Decoder.ascii_ToLower (fst kv) ≠ "value") ->
   Decoder.value (Decoder.mkLocals "k1" "" "" {[ "owner" := "x"; "tier" := "web" ]})
   = Decoder.value Decoder.locals_init) ∧
  ((∀ kv, kv ∈ [("Key", Decoder.JString "k1");
                 ("Metadata", Decoder.JMap [("owner", Decoder.JString "x");
                                            ("tier", Decoder.JString "web")])] ->
      Decoder.ascii_ToLower (fst kv) ≠ "version") ->
   Decoder.version (Decoder.mkLocals "k1" "" "" {[ "owner" := "x"; "tier" := "web" ]})
   = Decoder.version Decoder.locals_init) ∧
  ((∀ kv, kv ∈ [("Key", Decoder.JString "k1");
                 ("Metadata", Decoder.JMap [("owner", Decoder.JString "x");
                                            ("tier", Decoder.JString "web")])] ->
      Decoder.ascii_ToLower (fst kv) ≠ "metadata") ->
   Decoder.m (Decoder.mkLocals "k1" "" "" {[ "owner" := "x"; "tier" := "web" ]})
   = Decoder.m Decoder.locals_init).
Proof.
  apply (row_loop_reads_fields Decoder.ascii_ToLower
           [("Key", Decoder.JString "k1");
            ("Metadata", Decoder.JMap [("owner", Decoder.JString "x");
                                       ("tier", Decoder.JString "web")])]
           Decoder.locals_init
           (Decoder.mkLocals "k1" "" "" {[ "owner" := "x"; "tier" := "web" ]})).
  - apply (bool_decide_unpack _). vm_compute. exact I.
  - vm_compute. reflexivity.
Defined.
